(** * Virtual-terminal session controller (src/common/VirtualTerminal.cpp)

    A shallow embedding of the functions of namespace [SDDM::VirtualTerminal]:
    every function is a computation in a small state monad that threads the
    kernel it talks to, the C [errno] cell and the chronological record of
    what the process did (system calls with their outcome, log lines). *)

From Stdlib Require Import ZArith String List Bool Lia.
From Stdlib Require Import DecimalString DecimalPos DecimalZ.
Import ListNotations.
Open Scope string_scope.
Open Scope list_scope.
Open Scope Z_scope.

(** ** Constants of the platform headers *)

(** Values of <linux/vt.h>, <linux/kd.h>, <fcntl.h>, <errno.h> and <signal.h>
    on Linux; they are part of the kernel ABI and not of this repository. *)
Module Linux.
Definition VT_AUTO : Z := 0.
Definition VT_PROCESS : Z := 1.
Definition VT_ACKACQ : Z := 2.
Definition KD_TEXT : Z := 0.
Definition KD_GRAPHICS : Z := 1.
Definition KD_TEXT1 : Z := 3.
Definition O_RDWR : Z := 2.
Definition O_NOCTTY : Z := 256.
Definition ENOENT : Z := 2.
Definition EINTR : Z := 4.
Definition EIO : Z := 5.
Definition EBADF : Z := 9.
Definition SIGRTMAX : Z := 64.
(** [sizeof(const char * )] on an LP64 target. *)
Definition sizeof_pointer : Z := 8.
End Linux.
Export Linux.

Definition RELEASE_DISPLAY_SIGNAL : Z := SIGRTMAX.
Definition ACQUIRE_DISPLAY_SIGNAL : Z := SIGRTMAX - 1.

(** ** Data exchanged with the kernel *)

(** [struct vt_mode]. *)
Record vt_mode := mk_vt_mode {
  mode : Z;
  waitv : Z;
  relsig : Z;
  acqsig : Z;
  frsig : Z
}.

(** [struct vt_stat]. *)
Record vt_stat := mk_vt_stat {
  v_active : Z;
  v_signal : Z;
  v_state : Z
}.

(** The C initialiser [{ 0 }]. *)
Definition vt_mode_zero : vt_mode := mk_vt_mode 0 0 0 0 0.
Definition vt_stat_zero : vt_stat := mk_vt_stat 0 0 0.

(** The two signal handlers, as the function pointers given to [signal]. *)
Inductive handler := OnAcquireDisplay | OnReleaseDisplay.

(** The ioctl requests the file issues, each with the argument it passes. *)
Inductive request :=
| VT_OPENQRY
| VT_GETMODE
| VT_SETMODE (m : vt_mode)
| VT_GETSTATE
| VT_RELDISP (arg : Z)
| VT_ACTIVATE (vt : Z)
| VT_WAITACTIVE (vt : Z)
| KDSETMODE (m : Z)
| KDGETMODE.

Inductive syscall :=
| SysOpen (path : string) (flags : Z)
| SysClose (fd : Z)
| SysWrite (fd : Z) (buf : string) (count : Z)
| SysIoctl (fd : Z) (req : request)
| SysSignal (signum : Z) (h : handler).

(** What a call stores through its pointer argument when it succeeds. *)
Inductive payload :=
| NoData
| IntData (z : Z)
| ModeData (m : vt_mode)
| StatData (s : vt_stat).

(** Outcome of a system call: the return value (negative on failure), the
    value [errno] takes when it fails, and the data written on success. *)
Record sysret := mk_sysret {
  ret : Z;
  err : Z;
  data : payload
}.

Definition sys_ok : sysret := mk_sysret 0 0 NoData.

Inductive level := LvDebug | LvWarning | LvCritical.

Inductive logarg :=
| LInt (z : Z)
| LStr (s : string)
| LErrno (e : Z).

Inductive event :=
| EvSys (c : syscall) (r : sysret)
| EvLog (l : level) (msg : string) (args : list logarg).

(** Out-parameters: a failed call leaves the caller's buffer as it was. *)
Definition store_mode (r : sysret) (buf : vt_mode) : vt_mode :=
  if ret r <? 0 then buf
  else match data r with ModeData m => m | _ => buf end.

Definition store_stat (r : sysret) (buf : vt_stat) : vt_stat :=
  if ret r <? 0 then buf
  else match data r with StatData s => s | _ => buf end.

Definition store_int (r : sysret) (buf : Z) : Z :=
  if ret r <? 0 then buf
  else match data r with IntData z => z | _ => buf end.

Definition tty0 : string := "/dev/tty0".

(** [QStringLiteral("/dev/tty%1").arg(vt)]. *)
Definition ttyString (vt : Z) : string :=
  String.append "/dev/tty" (NilZero.string_of_int (Z.to_int vt)).

Definition open_flags : Z := Z.lor O_RDWR O_NOCTTY.

(** The literal ["\33[H\33[2J"]. *)
Definition clearEscapeSequence : string :=
  String (Ascii.ascii_of_nat 27)
    (String.append "[H" (String (Ascii.ascii_of_nat 27) "[2J")).

(** ** The program, over an arbitrary kernel *)

Section Program.

(** The kernel interface: a state and its reaction to a system call. *)
Variable K : Type.
Variable sys : K -> syscall -> sysret * K.

Record world := mk_world {
  kern : K;
  errno : Z;
  trace : list event
}.

Definition M (A : Type) : Type := world -> A * world.

Definition mret {A} (a : A) : M A := fun w => (a, w).

Definition bind {A B} (m : M A) (f : A -> M B) : M B :=
  fun w => f (fst (m w)) (snd (m w)).

Notation "x <- c1 ;; c2" := (bind c1 (fun x => c2))
  (at level 61, c1 at next level, right associativity).
Notation "c1 ;; c2" := (bind c1 (fun _ => c2))
  (at level 61, right associativity).

(** A system call: the kernel answers, [errno] is set on failure only, and
    the call is recorded. *)
Definition call (c : syscall) : M sysret := fun w =>
  let r := fst (sys (kern w) c) in
  (r, {| kern := snd (sys (kern w) c);
         errno := if ret r <? 0 then err r else errno w;
         trace := trace w ++ [EvSys c r] |}).

Definition log (l : level) (msg : string) (args : list logarg) : M unit :=
  fun w => (tt, {| kern := kern w; errno := errno w;
                   trace := trace w ++ [EvLog l msg args] |}).

Definition get_errno : M Z := fun w => (errno w, w).

Definition set_errno (e : Z) : M unit := fun w =>
  (tt, {| kern := kern w; errno := e; trace := trace w |}).

Definition open (path : string) : M Z :=
  r <- call (SysOpen path open_flags) ;; mret (ret r).

Definition close (fd : Z) : M unit :=
  call (SysClose fd) ;; mret tt.

Definition ioctl (fd : Z) (req : request) : M sysret :=
  call (SysIoctl fd req).

(** [qWarning() << msg << strerror(errno)] and its siblings. *)
Definition log_errno (l : level) (msg : string) (pre : list logarg) : M unit :=
  e <- get_errno ;; log l msg (pre ++ [LErrno e]).

Definition onAcquireDisplay (signal : Z) : M unit :=
  fd <- open tty0 ;;
  ioctl fd (VT_RELDISP VT_ACKACQ) ;;
  close fd.

Definition onReleaseDisplay (signal : Z) : M unit :=
  fd <- open tty0 ;;
  ioctl fd (VT_RELDISP 1) ;;
  close fd.

Definition setModeRequest : vt_mode :=
  mk_vt_mode VT_PROCESS 0 RELEASE_DISPLAY_SIGNAL ACQUIRE_DISPLAY_SIGNAL 0.

Definition handleVtSwitches (fd : Z) : M bool :=
  r <- ioctl fd (VT_SETMODE setModeRequest) ;;
  ok <- (if ret r <? 0
         then log_errno LvDebug "Failed to manage VT manually:" [] ;; mret false
         else mret true) ;;
  call (SysSignal RELEASE_DISPLAY_SIGNAL OnReleaseDisplay) ;;
  call (SysSignal ACQUIRE_DISPLAY_SIGNAL OnAcquireDisplay) ;;
  mret ok.

(** The code after the label [out:] of [fixVtMode]. *)
Definition fixVtMode_out (ok modeFixed : bool) : M unit :=
  if negb ok then log LvCritical "Failed to set up VT mode" []
  else if modeFixed then log LvDebug "VT mode fixed" []
  else log LvDebug "VT mode didn't need to be fixed" [].

Definition fixVtMode (fd : Z) (vt_auto : bool) : M unit :=
  r <- ioctl fd VT_GETMODE ;;
  let getmodeReply := store_mode r vt_mode_zero in
  ok <- (if ret r <? 0
         then log_errno LvWarning "Failed to query VT mode:" [] ;; mret false
         else mret true) ;;
  if negb (mode getmodeReply =? VT_AUTO) then fixVtMode_out ok false
  else
    r' <- ioctl fd KDGETMODE ;;
    let kernelDisplayMode := store_int r' 0 in
    ok <- (if ret r' <? 0
           then log_errno LvWarning "Failed to query kernel display mode:" [] ;;
                mret false
           else mret ok) ;;
    if kernelDisplayMode =? KD_TEXT then fixVtMode_out ok false
    else if vt_auto then
      r'' <- ioctl fd (KDSETMODE KD_TEXT) ;;
      ok <- (if ret r'' <? 0
             then log_errno LvWarning "Failed to set text mode for current VT: %s" [] ;;
                  mret false
             else mret ok) ;;
      fixVtMode_out ok false
    else
      ok <- handleVtSwitches fd ;;
      fixVtMode_out ok true.

Definition fetchAvailableVt : M Z :=
  fd <- open tty0 ;;
  if fd <? 0 then
    log_errno LvCritical "Failed to open VT master:" [] ;; mret (-1)
  else
    r <- ioctl fd VT_GETSTATE ;;
    let vtState := store_stat r vt_stat_zero in
    if ret r <? 0 then
      log_errno LvCritical "Failed to get current VT:" [] ;;
      r' <- ioctl fd VT_OPENQRY ;;
      let vt := store_int r' 0 in
      if ret r' <? 0 then
        log_errno LvCritical "Failed to open new VT:" [] ;;
        close fd ;; mret (-1)
      else close fd ;; mret vt
    else close fd ;; mret (v_active vtState).

Definition setUpNewVt : M Z :=
  fd <- open tty0 ;;
  if fd <? 0 then
    log_errno LvCritical "Failed to open VT master:" [] ;; mret (-1)
  else
    r <- ioctl fd VT_OPENQRY ;;
    let vt := store_int r 0 in
    if ret r <? 0 then
      log_errno LvCritical "Failed to open new VT:" [] ;;
      close fd ;; mret (-1)
    else if vt <=? 0 then
      r' <- ioctl fd VT_GETSTATE ;;
      let vtState := store_stat r' vt_stat_zero in
      if ret r' <? 0 then
        log_errno LvCritical "Failed to get current VT:" [] ;;
        close fd ;; mret (-1)
      else
        log LvWarning "New VT is not valid, fall back to"
            [LInt vt; LInt (v_active vtState)] ;;
        close fd ;; mret (v_active vtState)
    else close fd ;; mret vt.

(** The [do ... while (errno == EINTR)] loop of [jumpToVt].  The loop has no
    bound in the source; [fuel] bounds the number of rounds and the result
    tells whether the loop was left ([true]) or the bound was reached. *)
Fixpoint jump_loop (fuel : nat) (fd vt : Z) : M bool :=
  match fuel with
  | O => mret false
  | S fuel' =>
      set_errno 0 ;;
      r <- ioctl fd (VT_ACTIVATE vt) ;;
      if ret r <? 0 then
        e <- get_errno ;;
        if e =? EINTR then jump_loop fuel' fd vt
        else
          log LvWarning "Couldn't initiate jump to VT %d: %s" [LInt vt; LErrno e] ;;
          mret true
      else
        r' <- ioctl fd (VT_WAITACTIVE vt) ;;
        e <- get_errno ;;
        (if (ret r' <? 0) && negb (e =? EINTR)
         then log LvWarning "Couldn't finalize jump to VT %d: %s" [LInt vt; LErrno e]
         else mret tt) ;;
        e' <- get_errno ;;
        if e' =? EINTR then jump_loop fuel' fd vt else mret true
  end.

(** [jumpToVt]; the result is [true] when the function returns and [false]
    when the loop is still running after [fuel] rounds. *)
Definition jumpToVt (fuel : nat) (vt : Z) (vt_auto : bool) : M bool :=
  log LvDebug "Jumping to VT" [LInt vt] ;;
  activeVtFd <- open tty0 ;;
  vtFd <- open (ttyString vt) ;;
  fd <- (if negb (vtFd =? -1) then
           call (SysWrite vtFd clearEscapeSequence sizeof_pointer) ;;
           r <- ioctl vtFd (KDSETMODE KD_GRAPHICS) ;;
           (if ret r <? 0
            then log_errno LvWarning "Failed to set graphics mode for VT %d: %s" [LInt vt]
            else mret tt) ;;
           fixVtMode activeVtFd vt_auto ;;
           mret vtFd
         else
           log_errno LvWarning "Failed to open %s: %s" [LStr (ttyString vt)] ;;
           log LvDebug "Using /dev/tty0 instead of %s!" [LStr (ttyString vt)] ;;
           mret activeVtFd) ;;
  (if negb vt_auto then handleVtSwitches fd ;; mret tt else mret tt) ;;
  left <- jump_loop fuel fd vt ;;
  if left then
    close activeVtFd ;;
    (if negb (vtFd =? -1) then close vtFd else mret tt) ;;
    mret true
  else mret false.

(** The three stages of [jumpToVt], named for the proofs: what precedes the
    handshake (yielding the operative handle and the two handles opened),
    and what follows the loop. *)
Definition jump_prepare (vt : Z) (vt_auto : bool) : M (Z * (Z * Z)) :=
  log LvDebug "Jumping to VT" [LInt vt] ;;
  activeVtFd <- open tty0 ;;
  vtFd <- open (ttyString vt) ;;
  fd <- (if negb (vtFd =? -1) then
           call (SysWrite vtFd clearEscapeSequence sizeof_pointer) ;;
           r <- ioctl vtFd (KDSETMODE KD_GRAPHICS) ;;
           (if ret r <? 0
            then log_errno LvWarning "Failed to set graphics mode for VT %d: %s" [LInt vt]
            else mret tt) ;;
           fixVtMode activeVtFd vt_auto ;;
           mret vtFd
         else
           log_errno LvWarning "Failed to open %s: %s" [LStr (ttyString vt)] ;;
           log LvDebug "Using /dev/tty0 instead of %s!" [LStr (ttyString vt)] ;;
           mret activeVtFd) ;;
  mret (fd, (activeVtFd, vtFd)).

Definition jump_handshake (fd : Z) (vt_auto : bool) : M unit :=
  if negb vt_auto then handleVtSwitches fd ;; mret tt else mret tt.

Definition jump_finish (activeVtFd vtFd : Z) : M unit :=
  close activeVtFd ;;
  if negb (vtFd =? -1) then close vtFd else mret tt.

End Program.

Arguments mk_world {K}.
Arguments kern {K}.
Arguments errno {K}.
Arguments trace {K}.
Arguments mret {K A}.
Arguments bind {K A B}.
Arguments call {K}.
Arguments log {K}.
Arguments get_errno {K}.
Arguments set_errno {K}.
Arguments open {K}.
Arguments close {K}.
Arguments ioctl {K}.
Arguments log_errno {K}.
Arguments onAcquireDisplay {K}.
Arguments onReleaseDisplay {K}.
Arguments handleVtSwitches {K}.
Arguments fixVtMode_out {K}.
Arguments fixVtMode {K}.
Arguments fetchAvailableVt {K}.
Arguments setUpNewVt {K}.
Arguments jump_loop {K}.
Arguments jumpToVt {K}.
Arguments jump_prepare {K}.
Arguments jump_handshake {K}.
Arguments jump_finish {K}.

(** ** Kernels to run the program on *)

(** A scripted kernel: the answers are read off a finite list, one per call,
    whatever the call; once the list is used up every call succeeds. *)
Definition script := list sysret.

Definition script_sys (s : script) (c : syscall) : sysret * script :=
  match s with
  | [] => (sys_ok, [])
  | r :: s' => (r, s')
  end.

Definition ok_int (z : Z) : sysret := mk_sysret 0 0 (IntData z).
Definition ok_mode (m : Z) : sysret := mk_sysret 0 0 (ModeData (mk_vt_mode m 0 0 0 0)).
Definition ok_stat (a : Z) : sysret := mk_sysret 0 0 (StatData (mk_vt_stat a 0 0)).
Definition ok_fd (fd : Z) : sysret := mk_sysret fd 0 NoData.
Definition failed (e : Z) : sysret := mk_sysret (-1) e NoData.

(** A kernel that keeps the two modes of the active VT: the mode-set calls
    store what they are given and the mode queries report what is stored; all
    calls succeed. *)
Module SimKernel.
Record state := mk_state {
  vtmode : vt_mode;
  kdmode : Z
}.

Definition sys (s : state) (c : syscall) : sysret * state :=
  match c with
  | SysIoctl _ VT_GETMODE => (mk_sysret 0 0 (ModeData (vtmode s)), s)
  | SysIoctl _ (VT_SETMODE m) => (sys_ok, mk_state m (kdmode s))
  | SysIoctl _ KDGETMODE => (ok_int (kdmode s), s)
  | SysIoctl _ (KDSETMODE m) => (sys_ok, mk_state (vtmode s) m)
  | _ => (sys_ok, s)
  end.

(** The combination Mode Repair is there to fix. *)
Definition inconsistent (s : state) : Prop :=
  mode (vtmode s) = VT_AUTO /\ kdmode s = KD_GRAPHICS.
End SimKernel.

(** ** Observations on a trace *)

Definition is_activate (e : event) : bool :=
  match e with
  | EvSys (SysIoctl _ (VT_ACTIVATE _)) _ => true
  | _ => false
  end.

(** The calls that change a mode or install the handshake. *)
Definition is_repair_action (e : event) : bool :=
  match e with
  | EvSys (SysIoctl _ (KDSETMODE _)) _ => true
  | EvSys (SysIoctl _ (VT_SETMODE _)) _ => true
  | EvSys (SysSignal _ _) _ => true
  | _ => false
  end.

Definition no_repair_action (tr : list event) : bool :=
  forallb (fun e => negb (is_repair_action e)) tr.

Definition consistent_report : event :=
  EvLog LvDebug "VT mode didn't need to be fixed" [].

(** Mode Repair stopped in [CONSISTENT]: it reports that nothing had to be
    fixed, and it is the last thing it does. *)
Definition reports_consistent (tr : list event) : Prop :=
  exists pre, tr = pre ++ [consistent_report].

(** Handles a trace opens (calls to [open] that yield a descriptor) and
    handles it closes, in order. *)
Fixpoint opened_fds (tr : list event) : list Z :=
  match tr with
  | [] => []
  | EvSys (SysOpen _ _) r :: tr' =>
      if 0 <=? ret r then ret r :: opened_fds tr' else opened_fds tr'
  | _ :: tr' => opened_fds tr'
  end.

Fixpoint closed_fds (tr : list event) : list Z :=
  match tr with
  | [] => []
  | EvSys (SysClose fd) _ :: tr' => fd :: closed_fds tr'
  | _ :: tr' => closed_fds tr'
  end.

Definition closed_exactly_once (tr : list event) : Prop :=
  forall fd, In fd (opened_fds tr) -> count_occ Z.eq_dec (closed_fds tr) fd = 1%nat.

(** The handshake of [handleVtSwitches] on handle [fd]: the mode-set call for
    [VT_PROCESS] with the two signal numbers, then the two handlers, with
    nothing but log lines in between. *)
Definition is_log (e : event) : bool :=
  match e with EvLog _ _ _ => true | _ => false end.

Definition installs_handshake (fd : Z) (evs : list event) : Prop :=
  exists r1 logs r2 r3,
    evs = EvSys (SysIoctl fd (VT_SETMODE
                   (mk_vt_mode VT_PROCESS 0 RELEASE_DISPLAY_SIGNAL
                               ACQUIRE_DISPLAY_SIGNAL 0))) r1
          :: logs ++
          [EvSys (SysSignal RELEASE_DISPLAY_SIGNAL OnReleaseDisplay) r2;
           EvSys (SysSignal ACQUIRE_DISPLAY_SIGNAL OnAcquireDisplay) r3]
    /\ forallb is_log logs = true.

Definition ev_activate (fd vt : Z) (r : sysret) : event :=
  EvSys (SysIoctl fd (VT_ACTIVATE vt)) r.

Definition ev_waitactive (fd vt : Z) (r : sysret) : event :=
  EvSys (SysIoctl fd (VT_WAITACTIVE vt)) r.

(** The shape of a complete run of the activation loop on handle [fd] for
    target [vt]: rounds cut short by [EINTR] (at the activate call or at the
    wait call), each followed by a further round for the same target and
    leaving no log line, up to one round whose outcome is not [EINTR]. *)
Inductive retry_run (fd vt : Z) : list event -> Prop :=
| rr_switched ra rw :
    0 <= ret ra -> 0 <= ret rw ->
    retry_run fd vt [ev_activate fd vt ra; ev_waitactive fd vt rw]
| rr_activate_failed ra :
    ret ra < 0 -> err ra <> EINTR ->
    retry_run fd vt
      [ev_activate fd vt ra;
       EvLog LvWarning "Couldn't initiate jump to VT %d: %s" [LInt vt; LErrno (err ra)]]
| rr_wait_failed ra rw :
    0 <= ret ra -> ret rw < 0 -> err rw <> EINTR ->
    retry_run fd vt
      [ev_activate fd vt ra; ev_waitactive fd vt rw;
       EvLog LvWarning "Couldn't finalize jump to VT %d: %s" [LInt vt; LErrno (err rw)]]
| rr_activate_interrupted ra rest :
    ret ra < 0 -> err ra = EINTR ->
    retry_run fd vt rest ->
    retry_run fd vt (ev_activate fd vt ra :: rest)
| rr_wait_interrupted ra rw rest :
    0 <= ret ra -> ret rw < 0 -> err rw = EINTR ->
    retry_run fd vt rest ->
    retry_run fd vt (ev_activate fd vt ra :: ev_waitactive fd vt rw :: rest).

(** Rounds that were all cut short by [EINTR]. *)
Inductive interrupted_rounds (fd vt : Z) : list event -> Prop :=
| ir_nil : interrupted_rounds fd vt []
| ir_activate ra rest :
    ret ra < 0 -> err ra = EINTR ->
    interrupted_rounds fd vt rest ->
    interrupted_rounds fd vt (ev_activate fd vt ra :: rest)
| ir_wait ra rw rest :
    0 <= ret ra -> ret rw < 0 -> err rw = EINTR ->
    interrupted_rounds fd vt rest ->
    interrupted_rounds fd vt (ev_activate fd vt ra :: ev_waitactive fd vt rw :: rest).

(** Calls to activate or to wait for a VT. *)
Definition is_switch_call (e : event) : bool :=
  match e with
  | EvSys (SysIoctl _ (VT_ACTIVATE _)) _ => true
  | EvSys (SysIoctl _ (VT_WAITACTIVE _)) _ => true
  | _ => false
  end.

(** The system calls of a trace, without their outcome and without the log. *)
Fixpoint calls_of (tr : list event) : list syscall :=
  match tr with
  | [] => []
  | EvSys c _ :: tr' => c :: calls_of tr'
  | EvLog _ _ _ :: tr' => calls_of tr'
  end.

Definition is_handle_call (e : event) : bool :=
  match e with
  | EvSys (SysOpen _ _) _ => true
  | EvSys (SysClose _) _ => true
  | _ => false
  end.

(** Events that neither switch the VT nor open or close a handle. *)
Definition is_quiet (e : event) : bool :=
  negb (is_switch_call e) && negb (is_handle_call e).

(** Running a computation on a scripted kernel, from an empty trace. *)
Definition run_script {A} (m : M script A) (s : script) : A * list event :=
  let out := m (mk_world s 0 []) in (fst out, trace (snd out)).

(** Running Mode Repair twice in a row on the simulated kernel, on the same
    handle: the state between the two calls and the events of each call. *)
Definition repair_twice (fd : Z) (vt_auto vt_auto' : bool) (s : SimKernel.state)
  : SimKernel.state * (list event * list event) :=
  let w1 := snd (fixVtMode SimKernel.sys fd vt_auto (mk_world s 0 [])) in
  let w2 := snd (fixVtMode SimKernel.sys fd vt_auto' (mk_world (kern w1) (errno w1) [])) in
  (kern w1, (trace w1, trace w2)).

(** ** Further observations, for the properties beyond the claims *)

(** The calls that install the handshake. *)
Definition is_handshake_call (e : event) : bool :=
  match e with
  | EvSys (SysIoctl _ (VT_SETMODE _)) _ => true
  | EvSys (SysSignal _ _) _ => true
  | _ => false
  end.

(** The call that changes the display mode. *)
Definition is_kdsetmode (e : event) : bool :=
  match e with
  | EvSys (SysIoctl _ (KDSETMODE _)) _ => true
  | _ => false
  end.

(** The two mode queries of Mode Repair. *)
Definition is_mode_query (e : event) : bool :=
  match e with
  | EvSys (SysIoctl _ VT_GETMODE) _ => true
  | EvSys (SysIoctl _ KDGETMODE) _ => true
  | _ => false
  end.

Definition fixed_report : event := EvLog LvDebug "VT mode fixed" [].

Definition failure_report : event := EvLog LvCritical "Failed to set up VT mode" [].

Definition is_fixed_report (e : event) : bool :=
  match e with
  | EvLog LvDebug msg [] => String.eqb msg "VT mode fixed"
  | _ => false
  end.

(** An event that is no ioctl, or an ioctl on handle [fd]. *)
Definition ioctl_on (fd : Z) (e : event) : bool :=
  match e with
  | EvSys (SysIoctl fd' _) _ => fd' =? fd
  | _ => true
  end.

Definition is_write (e : event) : bool :=
  match e with EvSys (SysWrite _ _ _) _ => true | _ => false end.

Definition is_open_call (e : event) : bool :=
  match e with EvSys (SysOpen _ _) _ => true | _ => false end.

(** What the loop of [jumpToVt] does on handle [fd] for target [vt]: the
    activate call, the wait call, and log lines. *)
Definition is_loop_event (fd vt : Z) (e : event) : bool :=
  match e with
  | EvLog _ _ _ => true
  | EvSys (SysIoctl fd' (VT_ACTIVATE vt')) _ => (fd' =? fd) && (vt' =? vt)
  | EvSys (SysIoctl fd' (VT_WAITACTIVE vt')) _ => (fd' =? fd) && (vt' =? vt)
  | _ => false
  end.

(** What [jumpToVt] does itself, outside Mode Repair and the handshake. *)
Definition is_jump_own_event (e : event) : bool :=
  match e with
  | EvLog _ _ _ => true
  | EvSys (SysOpen _ _) _ => true
  | EvSys (SysClose _) _ => true
  | EvSys (SysWrite _ _ _) _ => true
  | EvSys (SysIoctl _ (KDSETMODE m)) _ => m =? KD_GRAPHICS
  | EvSys (SysIoctl _ (VT_ACTIVATE _)) _ => true
  | EvSys (SysIoctl _ (VT_WAITACTIVE _)) _ => true
  | _ => false
  end.

(** A kernel that interrupts every activate call and lets every other call
    succeed. *)
Definition interrupting_sys (u : unit) (c : syscall) : sysret * unit :=
  match c with
  | SysIoctl _ (VT_ACTIVATE _) => (failed EINTR, tt)
  | _ => (sys_ok, tt)
  end.

(** What Mode Repair has to fix, on the simulated kernel, as the code tests
    it: [VT_AUTO] with a display mode other than [KD_TEXT]. *)
Definition needs_repair (s : SimKernel.state) : bool :=
  (mode (SimKernel.vtmode s) =? VT_AUTO) && negb (SimKernel.kdmode s =? KD_TEXT).

(** * Proofs *)

Ltac simp_world := cbn [fst snd kern errno trace app negb].

(** Names the outcome of the next system call and lets the computation
    proceed on it. *)
Ltac next_call :=
  match goal with
  | |- context [?sys ?k (SysOpen ?p ?f)] =>
      is_var k; destruct (sys k (SysOpen p f)) as [? ?] eqn:?
  | |- context [?sys ?k (SysClose ?fd)] =>
      is_var k; destruct (sys k (SysClose fd)) as [? ?] eqn:?
  | |- context [?sys ?k (SysWrite ?fd ?b ?n)] =>
      is_var k; destruct (sys k (SysWrite fd b n)) as [? ?] eqn:?
  | |- context [?sys ?k (SysIoctl ?fd ?r)] =>
      is_var k; destruct (sys k (SysIoctl fd r)) as [? ?] eqn:?
  | |- context [?sys ?k (SysSignal ?s ?h)] =>
      is_var k; destruct (sys k (SysSignal s h)) as [? ?] eqn:?
  end; simp_world.

(** Unfolds the primitive operations of the monad. *)
Ltac unfold_prims :=
  unfold ioctl, open, close, log_errno, call, log, get_errno, set_errno,
    bind, mret; simp_world.

Ltac split_if :=
  match goal with
  | |- context [if ?b then _ else _] => destruct b eqn:?
  end.

Ltac list_eq := repeat rewrite <- app_assoc; cbn [app]; reflexivity.

Section Proofs.

Variable K : Type.
Variable sys : K -> syscall -> sysret * K.


(** *** The handshake *)

Lemma handleVtSwitches_events (fd : Z) (w : world K) :
  exists evs,
    trace (snd (handleVtSwitches sys fd w)) = trace w ++ evs
    /\ installs_handshake fd evs.
Proof.
  destruct w as [k e t]. unfold handleVtSwitches, setModeRequest.
  unfold_prims. next_call.
  destruct (ret s <? 0) eqn:Hs; simp_world;
    repeat next_call.
  - eexists. split; [list_eq |].
    exists s, [EvLog LvDebug "Failed to manage VT manually:" [LErrno (err s)]], s0, s1.
    split; reflexivity.
  - eexists. split; [list_eq |].
    exists s, [], s0, s1. split; reflexivity.
Qed.

(** *** Mode Repair *)

(** Whatever the kernel answers, Mode Repair neither switches the VT nor opens
    or closes a handle. *)
Lemma fixVtMode_quiet (fd : Z) (vt_auto : bool) (w : world K) :
  exists evs,
    trace (snd (fixVtMode sys fd vt_auto w)) = trace w ++ evs
    /\ forallb is_quiet evs = true.
Proof.
  destruct w as [k e t].
  unfold fixVtMode, fixVtMode_out, handleVtSwitches. unfold_prims.
  repeat (first [next_call | split_if; simp_world]);
    (eexists; split; [list_eq | reflexivity]).
Qed.

(** What the test [kernelDisplayMode == KD_TEXT] does.  When the VT-mode
    query reports [VT_AUTO] and the display-mode query reports a value [d],
    Mode Repair does nothing but the two queries and the report that nothing
    had to be fixed when [d] is [KD_TEXT]; for any other [d] it takes the
    branch the source heads "VT is in the VT_AUTO + KD_GRAPHICS state" and
    issues a repair action. *)
Theorem fixVtMode_auto_display_mode
    (fd : Z) (vt_auto : bool) (k : K) (e : Z)
    (r1 r2 : sysret) (k1 k2 : K) (m : vt_mode) (d : Z) :
  sys k (SysIoctl fd VT_GETMODE) = (r1, k1) ->
  0 <= ret r1 -> data r1 = ModeData m -> mode m = VT_AUTO ->
  sys k1 (SysIoctl fd KDGETMODE) = (r2, k2) ->
  0 <= ret r2 -> data r2 = IntData d ->
  let tr := trace (snd (fixVtMode sys fd vt_auto (mk_world k e []))) in
  (d = KD_TEXT ->
   tr = [EvSys (SysIoctl fd VT_GETMODE) r1; EvSys (SysIoctl fd KDGETMODE) r2;
         consistent_report]
   /\ reports_consistent tr /\ no_repair_action tr = true)
  /\ (d <> KD_TEXT -> no_repair_action tr = false).
Proof.
  intros H1 Hr1 Hd1 Hm H2 Hr2 Hd2 tr. subst tr.
  apply Z.ltb_ge in Hr1, Hr2.
  unfold fixVtMode, fixVtMode_out, handleVtSwitches, store_mode, store_int.
  unfold_prims. rewrite H1. simp_world. rewrite Hr1, Hd1, Hm.
  change (VT_AUTO =? VT_AUTO) with true. simp_world.
  rewrite H2. simp_world. rewrite Hr2, Hd2. simp_world.
  split.
  - intros ->. change (KD_TEXT =? KD_TEXT) with true. cbn.
    repeat split. exists [EvSys (SysIoctl fd VT_GETMODE) r1;
                          EvSys (SysIoctl fd KDGETMODE) r2]. reflexivity.
  - intros Hd. apply Z.eqb_neq in Hd. rewrite Hd.
    destruct vt_auto; simp_world;
      repeat (first [next_call | split_if; simp_world]);
      reflexivity.
Qed.

(** *** The activation loop *)

(** However many rounds the loop is given, what it has done is a sequence of
    rounds for the same handle and target: a complete run when the loop was
    left, interrupted rounds only when it is still running. *)
Lemma jump_loop_spec (fuel : nat) (fd vt : Z) :
  forall w : world K,
  exists evs,
    trace (snd (jump_loop sys fuel fd vt w)) = trace w ++ evs
    /\ (if fst (jump_loop sys fuel fd vt w)
        then retry_run fd vt evs
        else interrupted_rounds fd vt evs).
Proof.
  induction fuel as [|fuel IH]; intros [k e t].
  - exists []. cbn. rewrite app_nil_r. split; [reflexivity | constructor].
  - cbn [jump_loop]. unfold_prims. next_call.
    destruct (ret s <? 0) eqn:Ha; simp_world.
    + destruct (err s =? EINTR) eqn:He.
      * match goal with
        | |- context [jump_loop sys fuel fd vt ?W] =>
            destruct (IH W) as (evs & Ht & Hr)
        end.
        rewrite Ht. simp_world.
        exists (ev_activate fd vt s :: evs). split; [list_eq |].
        apply Z.ltb_lt in Ha. apply Z.eqb_eq in He.
        destruct (fst (jump_loop sys fuel fd vt _)); constructor; assumption.
      * simp_world. eexists. split; [list_eq |].
        apply Z.ltb_lt in Ha. apply Z.eqb_neq in He.
        apply rr_activate_failed; assumption.
    + next_call. apply Z.ltb_ge in Ha.
      destruct (ret s0 <? 0) eqn:Hw; simp_world.
      * destruct (err s0 =? EINTR) eqn:He; cbn [andb negb]; simp_world;
          rewrite ?He; simp_world.
        -- match goal with
           | |- context [jump_loop sys fuel fd vt ?W] =>
               destruct (IH W) as (evs & Ht & Hr)
           end.
           rewrite Ht. simp_world.
           exists (ev_activate fd vt s :: ev_waitactive fd vt s0 :: evs).
           split; [list_eq |].
           apply Z.ltb_lt in Hw. apply Z.eqb_eq in He.
           destruct (fst (jump_loop sys fuel fd vt _)); constructor; assumption.
        -- eexists. split; [list_eq |].
           apply Z.ltb_lt in Hw. apply Z.eqb_neq in He.
           apply rr_wait_failed; assumption.
      * cbn [andb]. simp_world. change (0 =? EINTR) with false. simp_world.
        eexists. split; [list_eq |].
        apply Z.ltb_ge in Hw. apply rr_switched; assumption.
Qed.

(** *** The stages of [jumpToVt] *)

Lemma jumpToVt_split (fuel : nat) (vt : Z) (vt_auto : bool) (w : world K) :
  jumpToVt sys fuel vt vt_auto w =
  let p := jump_prepare sys vt vt_auto w in
  let fd := fst (fst p) in
  let w1 := snd (jump_handshake sys fd vt_auto (snd p)) in
  let l := jump_loop sys fuel fd vt w1 in
  if fst l
  then (true, snd (jump_finish sys (fst (snd (fst p))) (snd (snd (fst p))) (snd l)))
  else (false, snd l).
Proof.
  unfold jumpToVt, jump_prepare, jump_handshake, jump_finish, bind, mret.
  cbn [fst snd].
  destruct vt_auto; cbn [negb fst snd];
    match goal with
    | |- context [if fst ?l then _ else _] => destruct (fst l)
    end; reflexivity.
Qed.

Lemma jump_prepare_spec (vt : Z) (vt_auto : bool) (w : world K) :
  exists ra rv evs,
    fst (jump_prepare sys vt vt_auto w)
    = (if negb (ret rv =? -1) then ret rv else ret ra, (ret ra, ret rv))
    /\ trace (snd (jump_prepare sys vt vt_auto w))
       = trace w ++
         [EvLog LvDebug "Jumping to VT" [LInt vt];
          EvSys (SysOpen tty0 open_flags) ra;
          EvSys (SysOpen (ttyString vt) open_flags) rv] ++ evs
    /\ forallb is_quiet evs = true.
Proof.
  destruct w as [k e t]. unfold jump_prepare. unfold_prims.
  do 2 next_call. exists s, s0.
  destruct (ret s0 =? -1) eqn:Hv; simp_world.
  - eexists. split; [reflexivity |]. split; [list_eq | reflexivity].
  - do 2 next_call.
    destruct (ret s2 <? 0) eqn:Hg; simp_world;
      match goal with
      | |- context [fixVtMode sys ?a ?b ?W] =>
          destruct (fixVtMode_quiet a b W) as (evs & Ht & Hq)
      end; rewrite Ht; simp_world;
      eexists; (split; [reflexivity |]); (split; [list_eq |]);
      cbn [forallb is_quiet is_switch_call is_handle_call negb andb];
      exact Hq.
Qed.

Lemma jump_handshake_spec (fd : Z) (vt_auto : bool) (w : world K) :
  exists evs,
    trace (snd (jump_handshake sys fd vt_auto w)) = trace w ++ evs
    /\ (if vt_auto then evs = [] else installs_handshake fd evs).
Proof.
  unfold jump_handshake. destruct vt_auto; cbn [negb].
  - exists []. unfold mret. cbn. rewrite app_nil_r. split; reflexivity.
  - unfold bind, mret. cbn [fst snd]. apply handleVtSwitches_events.
Qed.

Lemma jump_finish_spec (activeVtFd vtFd : Z) (w : world K) :
  exists rc1 rc2,
    trace (snd (jump_finish sys activeVtFd vtFd w))
    = trace w ++ EvSys (SysClose activeVtFd) rc1
        :: (if negb (vtFd =? -1) then [EvSys (SysClose vtFd) rc2] else []).
Proof.
  destruct w as [k e t]. unfold jump_finish. unfold_prims. next_call.
  destruct (vtFd =? -1); simp_world.
  - exists s, s. reflexivity.
  - next_call. exists s, s0. list_eq.
Qed.

(** Everything [jumpToVt] does, in order: the two opens, the preparation of
    the target, the handshake (process-driven switch only), the rounds of the
    loop and, when the loop is left, the closes. *)
Lemma jumpToVt_trace (fuel : nat) (vt : Z) (vt_auto : bool) (w : world K) :
  exists ra rv pre hs loop fin,
    let fd := if negb (ret rv =? -1) then ret rv else ret ra in
    trace (snd (jumpToVt sys fuel vt vt_auto w))
    = trace w ++
      [EvLog LvDebug "Jumping to VT" [LInt vt];
       EvSys (SysOpen tty0 open_flags) ra;
       EvSys (SysOpen (ttyString vt) open_flags) rv]
      ++ pre ++ hs ++ loop ++ fin
    /\ forallb is_quiet pre = true
    /\ (if vt_auto then hs = [] else installs_handshake fd hs)
    /\ (if fst (jumpToVt sys fuel vt vt_auto w)
        then retry_run fd vt loop
             /\ exists rc1 rc2,
                 fin = EvSys (SysClose (ret ra)) rc1
                       :: (if negb (ret rv =? -1)
                           then [EvSys (SysClose (ret rv)) rc2] else [])
        else interrupted_rounds fd vt loop /\ fin = []).
Proof.
  rewrite jumpToVt_split. cbv zeta.
  destruct (jump_prepare_spec vt vt_auto w) as (ra & rv & pre & Hp & Htp & Hq).
  rewrite Hp. cbn [fst snd].
  set (fd := if negb (ret rv =? -1) then ret rv else ret ra).
  destruct (jump_handshake_spec fd vt_auto (snd (jump_prepare sys vt vt_auto w)))
    as (hs & Hth & Hh).
  set (w1 := snd (jump_handshake sys fd vt_auto (snd (jump_prepare sys vt vt_auto w)))) in *.
  destruct (jump_loop_spec fuel fd vt w1) as (loop & Htl & Hl).
  exists ra, rv, pre, hs, loop.
  destruct (fst (jump_loop sys fuel fd vt w1)); cbn [fst snd].
  - destruct (jump_finish_spec (ret ra) (ret rv) (snd (jump_loop sys fuel fd vt w1)))
      as (rc1 & rc2 & Hf).
    eexists. split; [| split; [exact Hq | split; [exact Hh | split; [exact Hl |]]]].
    + rewrite Hf, Htl, Hth, Htp. repeat rewrite <- app_assoc. reflexivity.
    + exists rc1, rc2. reflexivity.
  - exists []. split; [| split; [exact Hq | split; [exact Hh | split; [exact Hl |]]]].
    + rewrite Htl, Hth, Htp. repeat rewrite <- app_assoc.
      rewrite app_nil_r. reflexivity.
    + reflexivity.
Qed.

(** The first thing a round of the loop does is the activate call. *)
Lemma jump_loop_head (fuel : nat) (fd vt : Z) (w : world K) :
  exists r rest,
    trace (snd (jump_loop sys (S fuel) fd vt w))
    = trace w ++ ev_activate fd vt r :: rest.
Proof.
  destruct w as [k e t]. cbn [jump_loop]. unfold_prims. next_call.
  exists s.
  assert (Hrec : forall W : world K,
             exists evs, trace (snd (jump_loop sys fuel fd vt W)) = trace W ++ evs).
  { intros W. destruct (jump_loop_spec fuel fd vt W) as (evs & Ht & _).
    exists evs. exact Ht. }
  destruct (ret s <? 0); simp_world.
  - destruct (err s =? EINTR).
    + match goal with
      | |- context [jump_loop sys fuel fd vt ?W] => destruct (Hrec W) as (evs & Ht)
      end.
      rewrite Ht. simp_world. eexists. list_eq.
    + simp_world. eexists. list_eq.
  - next_call.
    destruct ((ret s0 <? 0) && negb ((if ret s0 <? 0 then err s0 else 0) =? EINTR));
      simp_world;
      (destruct ((if ret s0 <? 0 then err s0 else 0) =? EINTR);
       [ match goal with
         | |- context [jump_loop sys fuel fd vt ?W] => destruct (Hrec W) as (evs & Ht)
         end; rewrite Ht; simp_world; eexists; list_eq
       | simp_world; eexists; list_eq ]).
Qed.

(** C1.  For every target id, and so for every valid one, a process-driven
    switch [jumpToVt vt false] installs the handshake (the [VT_SETMODE] call
    for [VT_PROCESS] with the release and acquire signal numbers, then the two
    signal handlers) before it issues any [VT_ACTIVATE] call: no activate call
    occurs before the handshake, and the first event after it is the
    activate call for the target.  This holds on every kernel and however
    long the loop runs. *)
Theorem jumpToVt_handshake_before_activate
    (fuel : nat) (vt : Z) (w : world K) :
  exists before hs after fd,
    trace (snd (jumpToVt sys (S fuel) vt false w)) = trace w ++ before ++ hs ++ after
    /\ forallb (fun e => negb (is_activate e)) before = true
    /\ installs_handshake fd hs
    /\ exists r rest, after = ev_activate fd vt r :: rest.
Proof.
  set (W := jump_prepare sys vt false w).
  destruct (jump_prepare_spec vt false w) as (ra & rv & pre & Hp & Htp & Hq).
  fold W in Hp, Htp.
  set (fd := if negb (ret rv =? -1) then ret rv else ret ra) in *.
  destruct (jump_handshake_spec fd false (snd W)) as (hs & Hth & Hh).
  set (w1 := snd (jump_handshake sys fd false (snd W))) in *.
  destruct (jump_loop_head fuel fd vt w1) as (r & rest & Hl).
  assert (Hfin : exists fin,
             trace (snd (jumpToVt sys (S fuel) vt false w))
             = trace (snd (jump_loop sys (S fuel) fd vt w1)) ++ fin).
  { rewrite jumpToVt_split. cbv zeta. fold W. rewrite Hp. cbn [fst snd].
    fold fd. fold w1.
    destruct (fst (jump_loop sys (S fuel) fd vt w1)); cbn [snd].
    - destruct (jump_finish_spec (ret ra) (ret rv)
                  (snd (jump_loop sys (S fuel) fd vt w1))) as (rc1 & rc2 & Hf).
      eexists. exact Hf.
    - exists []. rewrite app_nil_r. reflexivity. }
  destruct Hfin as (fin & Hfin).
  exists ([EvLog LvDebug "Jumping to VT" [LInt vt];
           EvSys (SysOpen tty0 open_flags) ra;
           EvSys (SysOpen (ttyString vt) open_flags) rv] ++ pre),
    hs, (ev_activate fd vt r :: rest ++ fin), fd.
  split.
  { rewrite Hfin, Hl, Hth, Htp. repeat rewrite <- app_assoc. reflexivity. }
  split.
  { cbn [app forallb is_activate negb andb].
    apply forallb_forall. intros x Hx.
    rewrite forallb_forall in Hq. specialize (Hq x Hx).
    unfold is_quiet in Hq. apply andb_prop in Hq. destruct Hq as [Hq _].
    destruct x as [[| | |? []|] ?|]; cbn in *; congruence. }
  split; [exact Hh |].
  exists r, (rest ++ fin). reflexivity.
Qed.

(** *** Handles *)

Lemma opened_fds_app (a b : list event) :
  opened_fds (a ++ b) = opened_fds a ++ opened_fds b.
Proof.
  induction a as [|[[p f|fd|fd s n|fd q|sg h] r|l m args] a IH]; cbn; auto.
  destruct (0 <=? ret r); cbn; congruence.
Qed.

Lemma closed_fds_app (a b : list event) :
  closed_fds (a ++ b) = closed_fds a ++ closed_fds b.
Proof.
  induction a as [|[[p f|fd|fd s n|fd q|sg h] r|l m args] a IH]; cbn; auto.
  congruence.
Qed.

Lemma no_handle_calls (evs : list event) :
  forallb (fun e => negb (is_handle_call e)) evs = true ->
  opened_fds evs = [] /\ closed_fds evs = [].
Proof.
  induction evs as [|[[p f|fd|fd s n|fd q|sg h] r|l m args] evs IH];
    cbn; intros H; try discriminate; auto.
Qed.

Lemma quiet_no_handle_calls (evs : list event) :
  forallb is_quiet evs = true ->
  forallb (fun e => negb (is_handle_call e)) evs = true.
Proof.
  intros H. apply forallb_forall. intros x Hx.
  rewrite forallb_forall in H. specialize (H x Hx).
  unfold is_quiet in H. apply andb_prop in H. tauto.
Qed.

Lemma handshake_no_handle_calls (fd : Z) (evs : list event) :
  installs_handshake fd evs ->
  forallb (fun e => negb (is_handle_call e)) evs = true.
Proof.
  intros (r1 & logs & r2 & r3 & -> & Hlogs).
  cbn [forallb is_handle_call negb andb]. rewrite forallb_app.
  apply andb_true_intro. split; [| reflexivity].
  apply forallb_forall. intros x Hx.
  rewrite forallb_forall in Hlogs. specialize (Hlogs x Hx).
  destruct x; [discriminate | reflexivity].
Qed.

Lemma retry_run_no_handle_calls (fd vt : Z) (evs : list event) :
  retry_run fd vt evs ->
  forallb (fun e => negb (is_handle_call e)) evs = true.
Proof. induction 1; cbn; auto. Qed.

(** The handles [jumpToVt] has opened and closed by the time it returns. *)
Lemma jumpToVt_handles (fuel : nat) (vt : Z) (vt_auto : bool) (k : K) (e : Z) :
  let out := jumpToVt sys fuel vt vt_auto (mk_world k e []) in
  fst out = true ->
  exists a v,
    opened_fds (trace (snd out))
    = (if 0 <=? a then [a] else []) ++ (if 0 <=? v then [v] else [])
    /\ closed_fds (trace (snd out))
       = a :: (if negb (v =? -1) then [v] else []).
Proof.
  intros out Hret. subst out.
  destruct (jumpToVt_trace fuel vt vt_auto (mk_world k e []))
    as (ra & rv & pre & hs & loop & fin & Ht & Hq & Hh & Hl).
  cbv zeta in *. rewrite Hret in Hl. destruct Hl as (Hl & rc1 & rc2 & ->).
  exists (ret ra), (ret rv). rewrite Ht. cbn [trace app].
  apply quiet_no_handle_calls, no_handle_calls in Hq. destruct Hq as [Ho1 Hc1].
  assert (Hhs : forallb (fun e => negb (is_handle_call e)) hs = true).
  { destruct vt_auto; [subst hs; reflexivity |].
    eapply handshake_no_handle_calls; eassumption. }
  apply no_handle_calls in Hhs. destruct Hhs as [Ho2 Hc2].
  apply retry_run_no_handle_calls, no_handle_calls in Hl. destruct Hl as [Ho3 Hc3].
  split.
  - cbn [opened_fds]. repeat rewrite opened_fds_app. rewrite Ho1, Ho2, Ho3.
    destruct (negb (ret rv =? -1)); destruct (0 <=? ret ra);
      destruct (0 <=? ret rv); reflexivity.
  - cbn [closed_fds]. repeat rewrite closed_fds_app. rewrite Hc1, Hc2, Hc3.
    destruct (negb (ret rv =? -1)); reflexivity.
Qed.

(** C8.  On every kernel, each of [fetchAvailableVt], [setUpNewVt] and
    [jumpToVt] has closed every handle it opened exactly once by the time it
    returns, whatever path it took.  For [jumpToVt], which holds two handles
    at a time, the kernel is taken never to hand out a descriptor that is
    still open. *)
Theorem handles_closed_exactly_once (k : K) (e : Z) :
  closed_exactly_once (trace (snd (fetchAvailableVt sys (mk_world k e []))))
  /\ closed_exactly_once (trace (snd (setUpNewVt sys (mk_world k e []))))
  /\ forall (fuel : nat) (vt : Z) (vt_auto : bool),
      let out := jumpToVt sys fuel vt vt_auto (mk_world k e []) in
      fst out = true ->
      NoDup (opened_fds (trace (snd out))) ->
      closed_exactly_once (trace (snd out)).
Proof.
  split; [| split].
  - unfold fetchAvailableVt. unfold_prims. next_call.
    destruct (ret s <? 0) eqn:Hfd; simp_world.
    + unfold closed_exactly_once. cbn [opened_fds closed_fds].
      apply Z.ltb_lt in Hfd. destruct (0 <=? ret s) eqn:H0; [lia | intros ? []].
    + apply Z.ltb_ge in Hfd. apply Z.leb_le in Hfd.
      repeat (first [next_call | split_if; simp_world]);
        unfold closed_exactly_once; cbn [opened_fds closed_fds];
        rewrite Hfd; cbn [count_occ];
        intros fd [<- | []]; destruct (Z.eq_dec (ret s) (ret s)); congruence.
  - unfold setUpNewVt. unfold_prims. next_call.
    destruct (ret s <? 0) eqn:Hfd; simp_world.
    + unfold closed_exactly_once. cbn [opened_fds closed_fds].
      apply Z.ltb_lt in Hfd. destruct (0 <=? ret s) eqn:H0; [lia | intros ? []].
    + apply Z.ltb_ge in Hfd. apply Z.leb_le in Hfd.
      repeat (first [next_call | split_if; simp_world]);
        unfold closed_exactly_once; cbn [opened_fds closed_fds];
        rewrite Hfd; cbn [count_occ];
        intros fd [<- | []]; destruct (Z.eq_dec (ret s) (ret s)); congruence.
  - intros fuel vt vt_auto out Hret Hnd.
    destruct (jumpToVt_handles fuel vt vt_auto k e Hret) as (a & v & Ho & Hc).
    fold out in Ho, Hc. unfold closed_exactly_once.
    rewrite Ho in Hnd |- *. rewrite Hc. clear Ho Hc.
    intros fd Hin.
    destruct (Z.leb_spec 0 a) as [Ha | Ha]; destruct (Z.leb_spec 0 v) as [Hv | Hv];
      destruct (Z.eqb_spec v (-1)) as [Hm | Hm]; cbn [negb app] in *;
      try lia; cbn [In] in Hin; cbn [count_occ];
      repeat match goal with
             | H : _ \/ _ |- _ => destruct H
             | H : False |- _ => destruct H
             | H : NoDup (_ :: _) |- _ => inversion H; clear H; subst
             | H : ~ In _ (_ :: _) |- _ => cbn [In] in H
             end; subst;
      repeat match goal with
             | |- context [Z.eq_dec ?x ?y] => destruct (Z.eq_dec x y)
             end; try reflexivity; try lia; try tauto.
Qed.

(** *** Discovery and allocation *)

(** C6.  Once the master handle is open: when the VT-state query succeeds,
    [fetchAvailableVt] returns the active VT and makes no allocation call;
    when it fails, the failure is not returned: the allocation call is made
    and its id is the result, and the result is the error value [-1] when the
    allocation call fails as well. *)
Theorem fetchAvailableVt_query_then_allocation
    (k : K) (e : Z) (r0 r1 r2 : sysret) (k1 k2 k3 : K) :
  sys k (SysOpen tty0 open_flags) = (r0, k1) -> 0 <= ret r0 ->
  sys k1 (SysIoctl (ret r0) VT_GETSTATE) = (r1, k2) ->
  sys k2 (SysIoctl (ret r0) VT_OPENQRY) = (r2, k3) ->
  let out := fetchAvailableVt sys (mk_world k e []) in
  let fd := ret r0 in
  (forall st, 0 <= ret r1 -> data r1 = StatData st ->
     fst out = v_active st
     /\ calls_of (trace (snd out))
        = [SysOpen tty0 open_flags; SysIoctl fd VT_GETSTATE; SysClose fd])
  /\ (ret r1 < 0 ->
      calls_of (trace (snd out))
      = [SysOpen tty0 open_flags; SysIoctl fd VT_GETSTATE;
         SysIoctl fd VT_OPENQRY; SysClose fd]
      /\ (forall v, 0 <= ret r2 -> data r2 = IntData v -> fst out = v)
      /\ (ret r2 < 0 -> fst out = -1)).
Proof.
  intros H0 Hfd H1 H2 out fd. subst out fd.
  apply Z.ltb_ge in Hfd.
  unfold fetchAvailableVt, store_stat, store_int. unfold_prims.
  rewrite H0. simp_world. rewrite Hfd. simp_world. rewrite H1. simp_world.
  split.
  - intros st Hr1 Hd1. apply Z.ltb_ge in Hr1. rewrite Hr1, Hd1. simp_world.
    split; reflexivity.
  - intros Hr1. apply Z.ltb_lt in Hr1. rewrite Hr1. simp_world.
    rewrite H2. simp_world.
    split; [destruct (ret r2 <? 0); reflexivity |].
    split.
    + intros v Hr2 Hd2. apply Z.ltb_ge in Hr2. rewrite Hr2, Hd2. reflexivity.
    + intros Hr2. apply Z.ltb_lt in Hr2. rewrite Hr2. reflexivity.
Qed.

(** C10.  When the VT-state query fails and the allocation call succeeds
    with a non-positive id [v], [fetchAvailableVt] returns [v] as it is: after
    the allocation call it only closes the handle, with no query of the
    active VT and no further log line, so that [0] can come back as a
    result. *)
Theorem fetchAvailableVt_returns_allocation_unchecked
    (k : K) (e : Z) (r0 r1 r2 : sysret) (k1 k2 k3 : K) (v : Z) :
  sys k (SysOpen tty0 open_flags) = (r0, k1) -> 0 <= ret r0 ->
  sys k1 (SysIoctl (ret r0) VT_GETSTATE) = (r1, k2) -> ret r1 < 0 ->
  sys k2 (SysIoctl (ret r0) VT_OPENQRY) = (r2, k3) ->
  0 <= ret r2 -> data r2 = IntData v -> v <= 0 ->
  let out := fetchAvailableVt sys (mk_world k e []) in
  fst out = v
  /\ exists rc,
      trace (snd out)
      = [EvSys (SysOpen tty0 open_flags) r0;
         EvSys (SysIoctl (ret r0) VT_GETSTATE) r1;
         EvLog LvCritical "Failed to get current VT:" [LErrno (err r1)];
         EvSys (SysIoctl (ret r0) VT_OPENQRY) r2;
         EvSys (SysClose (ret r0)) rc].
Proof.
  intros H0 Hfd H1 Hr1 H2 Hr2 Hd2 _ out. subst out.
  apply Z.ltb_ge in Hfd. apply Z.ltb_lt in Hr1. apply Z.ltb_ge in Hr2.
  unfold fetchAvailableVt, store_stat, store_int. unfold_prims.
  rewrite H0. simp_world. rewrite Hfd. simp_world. rewrite H1. simp_world.
  rewrite Hr1. simp_world. rewrite H2. simp_world. rewrite Hr2, Hd2. simp_world.
  split; [reflexivity |]. eexists. reflexivity.
Qed.

(** C7.  When the allocation call of [setUpNewVt] succeeds with a
    non-positive id and the query of the active VT succeeds, the result is
    the active VT; the fallback is reported as a warning and is not an
    error. *)
Theorem setUpNewVt_falls_back_to_active
    (k : K) (e : Z) (r0 r1 r2 : sysret) (k1 k2 k3 : K) (v : Z) (st : vt_stat) :
  sys k (SysOpen tty0 open_flags) = (r0, k1) -> 0 <= ret r0 ->
  sys k1 (SysIoctl (ret r0) VT_OPENQRY) = (r1, k2) ->
  0 <= ret r1 -> data r1 = IntData v -> v <= 0 ->
  sys k2 (SysIoctl (ret r0) VT_GETSTATE) = (r2, k3) ->
  0 <= ret r2 -> data r2 = StatData st ->
  let out := setUpNewVt sys (mk_world k e []) in
  fst out = v_active st
  /\ exists rc,
      trace (snd out)
      = [EvSys (SysOpen tty0 open_flags) r0;
         EvSys (SysIoctl (ret r0) VT_OPENQRY) r1;
         EvSys (SysIoctl (ret r0) VT_GETSTATE) r2;
         EvLog LvWarning "New VT is not valid, fall back to"
               [LInt v; LInt (v_active st)];
         EvSys (SysClose (ret r0)) rc].
Proof.
  intros H0 Hfd H1 Hr1 Hd1 Hv H2 Hr2 Hd2 out. subst out.
  apply Z.ltb_ge in Hfd, Hr1, Hr2. apply Z.leb_le in Hv.
  unfold setUpNewVt, store_stat, store_int. unfold_prims.
  rewrite H0. simp_world. rewrite Hfd. simp_world. rewrite H1. simp_world.
  rewrite Hr1, Hd1, Hv. simp_world. rewrite H2. simp_world.
  rewrite Hr2, Hd2. simp_world.
  split; [reflexivity |]. eexists. reflexivity.
Qed.

End Proofs.

(** ** Runs on the scripted kernel *)

(** On a scripted kernel the loop is left after at most as many rounds as
    the script has answers left, plus one. *)
Lemma jump_loop_script_terminates (fuel : nat) :
  forall (s : script) (e : Z) (t : list event) (fd vt : Z),
    (length s < fuel)%nat ->
    fst (jump_loop script_sys fuel fd vt (mk_world s e t)) = true.
Proof.
  induction fuel as [|fuel IH]; intros s e t fd vt Hlen; [lia |].
  cbn [jump_loop]. unfold_prims.
  destruct s as [|ra s]; cbn [script_sys fst snd]; [reflexivity |].
  destruct (ret ra <? 0) eqn:Ha; simp_world.
  - destruct (err ra =? EINTR); [| reflexivity].
    apply IH. cbn [length] in Hlen. lia.
  - destruct s as [|rw s]; cbn [script_sys fst snd]; [reflexivity |].
    destruct (ret rw <? 0) eqn:Hw; simp_world.
    + destruct (err rw =? EINTR) eqn:He; cbn [andb negb]; simp_world;
        rewrite ?He; [| reflexivity].
      apply IH. cbn [length] in Hlen. lia.
    + reflexivity.
Qed.

Lemma handshake_no_switch_calls (fd : Z) (evs : list event) :
  installs_handshake fd evs ->
  forallb (fun e => negb (is_switch_call e)) evs = true.
Proof.
  intros (r1 & logs & r2 & r3 & -> & Hlogs).
  cbn [forallb is_switch_call negb andb]. rewrite forallb_app.
  apply andb_true_intro. split; [| reflexivity].
  apply forallb_forall. intros x Hx.
  rewrite forallb_forall in Hlogs. specialize (Hlogs x Hx).
  destruct x; [discriminate | reflexivity].
Qed.

Lemma quiet_no_switch_calls (evs : list event) :
  forallb is_quiet evs = true ->
  forallb (fun e => negb (is_switch_call e)) evs = true.
Proof.
  intros H. apply forallb_forall. intros x Hx.
  rewrite forallb_forall in H. specialize (H x Hx).
  unfold is_quiet in H. apply andb_prop in H. tauto.
Qed.

(** C5.  For every target, either kind of switch and every finite sequence
    of kernel answers, [jumpToVt] returns once it is given enough rounds, and
    what it did between its preparation and its closes is a complete run of
    the loop for that target: every round cut short by [EINTR], at the
    activate call or at the wait call, is followed by a further round for the
    same target and leaves no log line; the run ends at the first round whose
    outcome is not [EINTR]; an activate call that fails otherwise is logged
    and followed by no wait call.  Nothing is reported to the caller. *)
Theorem jumpToVt_retries_until_not_interrupted
    (vt : Z) (vt_auto : bool) (s : script) (e : Z) :
  exists n, forall fuel, (n <= fuel)%nat ->
    let out := jumpToVt script_sys fuel vt vt_auto (mk_world s e []) in
    fst out = true
    /\ exists before loop after fd,
        trace (snd out) = before ++ loop ++ after
        /\ retry_run fd vt loop
        /\ forallb (fun ev => negb (is_switch_call ev)) before = true
        /\ forallb (fun ev => negb (is_switch_call ev)) after = true.
Proof.
  set (w := mk_world s e []).
  set (p := jump_prepare script_sys vt vt_auto w).
  set (w1 := snd (jump_handshake script_sys (fst (fst p)) vt_auto (snd p))).
  exists (S (length (kern w1))). intros fuel Hfuel out.
  assert (Hret : fst out = true).
  { subst out. rewrite jumpToVt_split. cbv zeta. fold w p w1.
    assert (Hl : fst (jump_loop script_sys fuel (fst (fst p)) vt w1) = true).
    { destruct w1 as [k1 e1 t1]. apply jump_loop_script_terminates.
      cbn [kern] in Hfuel. lia. }
    rewrite Hl. reflexivity. }
  split; [exact Hret |].
  destruct (jumpToVt_trace script script_sys fuel vt vt_auto w)
    as (ra & rv & pre & hs & loop & fin & Ht & Hq & Hh & Hl).
  cbv zeta in *. fold out in Ht, Hl. rewrite Hret in Hl.
  destruct Hl as (Hl & rc1 & rc2 & ->).
  exists ([EvLog LvDebug "Jumping to VT" [LInt vt];
           EvSys (SysOpen tty0 open_flags) ra;
           EvSys (SysOpen (ttyString vt) open_flags) rv] ++ pre ++ hs),
    loop,
    (EvSys (SysClose (ret ra)) rc1
       :: (if negb (ret rv =? -1) then [EvSys (SysClose (ret rv)) rc2] else [])),
    (if negb (ret rv =? -1) then ret rv else ret ra).
  split; [rewrite Ht; cbn [trace app]; repeat rewrite <- app_assoc; reflexivity |].
  split; [exact Hl |].
  split.
  - cbn [app forallb is_switch_call negb andb]. rewrite forallb_app.
    apply andb_true_intro. split; [apply quiet_no_switch_calls, Hq |].
    destruct vt_auto; [subst hs; reflexivity |].
    eapply handshake_no_switch_calls; eassumption.
  - destruct (negb (ret rv =? -1)); reflexivity.
Qed.

(** C2.  [jumpToVt] does not look at the result of opening the master
    device.  With the master open failing and the target open succeeding,
    Mode Repair runs on the invalid handle [-1], which is later given to
    [close]; with both opens failing, the handshake, the activate call and
    the wait call are all issued on [-1]. *)
Theorem jumpToVt_master_open_failure_ignored :
  calls_of (snd (run_script (jumpToVt script_sys 1 7 false)
                   [failed ENOENT; ok_fd 5; sys_ok; sys_ok;
                    failed EBADF; failed EBADF]))
  = [SysOpen "/dev/tty0" 258; SysOpen "/dev/tty7" 258;
     SysWrite 5 clearEscapeSequence 8; SysIoctl 5 (KDSETMODE KD_GRAPHICS);
     SysIoctl (-1) VT_GETMODE; SysIoctl (-1) KDGETMODE;
     SysIoctl 5 (VT_SETMODE (mk_vt_mode VT_PROCESS 0 64 63 0));
     SysSignal 64 OnReleaseDisplay; SysSignal 63 OnAcquireDisplay;
     SysIoctl 5 (VT_ACTIVATE 7); SysIoctl 5 (VT_WAITACTIVE 7);
     SysClose (-1); SysClose 5]
  /\ calls_of (snd (run_script (jumpToVt script_sys 1 7 false)
                      [failed ENOENT; failed ENOENT]))
     = [SysOpen "/dev/tty0" 258; SysOpen "/dev/tty7" 258;
        SysIoctl (-1) (VT_SETMODE (mk_vt_mode VT_PROCESS 0 64 63 0));
        SysSignal 64 OnReleaseDisplay; SysSignal 63 OnAcquireDisplay;
        SysIoctl (-1) (VT_ACTIVATE 7); SysIoctl (-1) (VT_WAITACTIVE 7);
        SysClose (-1)].
Proof. split; reflexivity. Qed.

(** C4.  A failed VT-mode query does not end Mode Repair.  The reply buffer
    keeps its initial zero, which is [VT_AUTO], so the display-mode query is
    issued all the same; and when that query reports [KD_GRAPHICS] on a
    process-driven switch, the handshake is installed and its result replaces
    the recorded failure: the run ends with the report that the mode was
    fixed, not with the failure report. *)
Theorem fixVtMode_query_failure_goes_on :
  run_script (fixVtMode script_sys (-1) false) [failed EBADF; failed EBADF]
  = (tt, [EvSys (SysIoctl (-1) VT_GETMODE) (failed EBADF);
          EvLog LvWarning "Failed to query VT mode:" [LErrno EBADF];
          EvSys (SysIoctl (-1) KDGETMODE) (failed EBADF);
          EvLog LvWarning "Failed to query kernel display mode:" [LErrno EBADF];
          EvLog LvCritical "Failed to set up VT mode" []])
  /\ run_script (fixVtMode script_sys 3 false) [failed EIO; ok_int KD_GRAPHICS]
     = (tt, [EvSys (SysIoctl 3 VT_GETMODE) (failed EIO);
             EvLog LvWarning "Failed to query VT mode:" [LErrno EIO];
             EvSys (SysIoctl 3 KDGETMODE) (ok_int KD_GRAPHICS);
             EvSys (SysIoctl 3 (VT_SETMODE (mk_vt_mode VT_PROCESS 0 64 63 0))) sys_ok;
             EvSys (SysSignal 64 OnReleaseDisplay) sys_ok;
             EvSys (SysSignal 63 OnAcquireDisplay) sys_ok;
             EvLog LvDebug "VT mode fixed" []]).
Proof. split; reflexivity. Qed.


(** ** Mode Repair on the simulated kernel *)

(** C9.  From a state in which the VT is in [VT_AUTO] with the display in
    [KD_GRAPHICS], a first Mode Repair call repairs, by either strategy, and
    the state it leaves is no longer that combination; a second call right
    after it, on the same handle, reports that nothing had to be fixed and
    issues no mode-set call and no handshake installation. *)
Theorem fixVtMode_twice_is_consistent
    (fd : Z) (vt_auto vt_auto' : bool) (s : SimKernel.state) :
  SimKernel.inconsistent s ->
  let r := repair_twice fd vt_auto vt_auto' s in
  ~ SimKernel.inconsistent (fst r)
  /\ no_repair_action (fst (snd r)) = false
  /\ reports_consistent (snd (snd r))
  /\ no_repair_action (snd (snd r)) = true.
Proof.
  destruct s as [[m wv rs aq fr] kd]. unfold SimKernel.inconsistent.
  cbn [SimKernel.vtmode SimKernel.kdmode mode]. intros [-> ->].
  destruct vt_auto; cbn.
  - split; [intros [_ H]; discriminate H |].
    split; [reflexivity |]. split; [| reflexivity].
    eexists [_; _]. reflexivity.
  - split; [intros [H _]; discriminate H |].
    split; [reflexivity |]. split; [| reflexivity].
    eexists [_]. reflexivity.
Qed.

(** ** The theorems at concrete kernels *)

Lemma fixVtMode_auto_display_mode_witness :
  no_repair_action
    (trace (snd (fixVtMode script_sys 3 true
                   (mk_world [ok_mode VT_AUTO; ok_int KD_TEXT] 0 [])))) = true.
Proof.
  refine (proj2 (proj2 (proj1
    (fixVtMode_auto_display_mode script script_sys 3 true
       [ok_mode VT_AUTO; ok_int KD_TEXT] 0
       (ok_mode VT_AUTO) (ok_int KD_TEXT) [ok_int KD_TEXT] []
       (mk_vt_mode VT_AUTO 0 0 0 0) KD_TEXT
       eq_refl _ eq_refl eq_refl eq_refl _ eq_refl) eq_refl)));
    cbn; lia.
Defined.

Lemma jumpToVt_retries_until_not_interrupted_witness :
  exists fuel,
    fst (jumpToVt script_sys fuel 3 false
           (mk_world [ok_fd 3; ok_fd 4; sys_ok; sys_ok; ok_mode VT_PROCESS;
                      sys_ok; sys_ok; sys_ok;
                      failed EINTR; failed EINTR; sys_ok; sys_ok] 0 [])) = true.
Proof.
  destruct (jumpToVt_retries_until_not_interrupted 3 false
              [ok_fd 3; ok_fd 4; sys_ok; sys_ok; ok_mode VT_PROCESS;
               sys_ok; sys_ok; sys_ok;
               failed EINTR; failed EINTR; sys_ok; sys_ok] 0) as [n H].
  exists n. exact (proj1 (H n (le_n n))).
Defined.

Lemma fetchAvailableVt_query_then_allocation_witness :
  fst (fetchAvailableVt script_sys
         (mk_world [ok_fd 3; failed EIO; ok_int 5] 0 [])) = 5.
Proof.
  refine (proj1 (proj2 (proj2
    (fetchAvailableVt_query_then_allocation script script_sys
       [ok_fd 3; failed EIO; ok_int 5] 0
       (ok_fd 3) (failed EIO) (ok_int 5) [failed EIO; ok_int 5] [ok_int 5] []
       eq_refl _ eq_refl eq_refl) _)) 5 _ eq_refl); cbn; lia.
Defined.

Lemma setUpNewVt_falls_back_to_active_witness :
  fst (setUpNewVt script_sys
         (mk_world [ok_fd 3; ok_int 0; ok_stat 2] 0 [])) = 2.
Proof.
  refine (proj1
    (setUpNewVt_falls_back_to_active script script_sys
       [ok_fd 3; ok_int 0; ok_stat 2] 0
       (ok_fd 3) (ok_int 0) (ok_stat 2) [ok_int 0; ok_stat 2] [ok_stat 2] []
       0 (mk_vt_stat 2 0 0)
       eq_refl _ eq_refl _ eq_refl _ eq_refl _ eq_refl)); cbn; lia.
Defined.

Lemma handles_closed_exactly_once_witness :
  closed_exactly_once
    (trace (snd (jumpToVt script_sys 1 7 false (mk_world [ok_fd 3; ok_fd 4] 0 [])))).
Proof.
  refine (proj2 (proj2 (handles_closed_exactly_once script script_sys
                          [ok_fd 3; ok_fd 4] 0)) 1%nat 7 false eq_refl _).
  vm_compute. repeat constructor; cbn; intuition discriminate.
Defined.

Lemma fixVtMode_twice_is_consistent_witness :
  no_repair_action
    (snd (snd (repair_twice 3 true false
                 (SimKernel.mk_state (mk_vt_mode VT_AUTO 0 0 0 0) KD_GRAPHICS))))
  = true.
Proof.
  refine (proj2 (proj2 (proj2
    (fixVtMode_twice_is_consistent 3 true false
       (SimKernel.mk_state (mk_vt_mode VT_AUTO 0 0 0 0) KD_GRAPHICS)
       (conj eq_refl eq_refl))))).
Defined.

Lemma fetchAvailableVt_returns_allocation_unchecked_witness :
  fst (fetchAvailableVt script_sys
         (mk_world [ok_fd 3; failed EIO; ok_int 0] 0 [])) = 0
  /\ fst (setUpNewVt script_sys
            (mk_world [ok_fd 3; ok_int 0; ok_stat 2] 0 [])) = 2.
Proof.
  split; [| reflexivity].
  refine (proj1
    (fetchAvailableVt_returns_allocation_unchecked script script_sys
       [ok_fd 3; failed EIO; ok_int 0] 0
       (ok_fd 3) (failed EIO) (ok_int 0) [failed EIO; ok_int 0] [ok_int 0] [] 0
       eq_refl _ eq_refl _ eq_refl _ eq_refl _)); cbn; lia.
Defined.

(** ** Sample runs *)

(** The active VT is found: no allocation call is made. *)
Example fetchAvailableVt_active :
  run_script (fetchAvailableVt script_sys) [ok_fd 3; ok_stat 3]
  = (3, [EvSys (SysOpen tty0 258) (ok_fd 3);
         EvSys (SysIoctl 3 VT_GETSTATE) (ok_stat 3);
         EvSys (SysClose 3) sys_ok]).
Proof. reflexivity. Qed.

(** The master device cannot be opened: nothing is queried, nothing closed. *)
Example fetchAvailableVt_no_master :
  run_script (fetchAvailableVt script_sys) [failed ENOENT]
  = (-1, [EvSys (SysOpen tty0 258) (failed ENOENT);
          EvLog LvCritical "Failed to open VT master:" [LErrno ENOENT]]).
Proof. reflexivity. Qed.

(** Both strategies of Mode Repair on [VT_AUTO] with [KD_GRAPHICS]. *)
Example fixVtMode_owner_gone :
  calls_of (snd (run_script (fixVtMode script_sys 3 true)
                   [ok_mode VT_AUTO; ok_int KD_GRAPHICS]))
  = [SysIoctl 3 VT_GETMODE; SysIoctl 3 KDGETMODE; SysIoctl 3 (KDSETMODE KD_TEXT)].
Proof. reflexivity. Qed.

Example fixVtMode_owner_alive :
  calls_of (snd (run_script (fixVtMode script_sys 3 false)
                   [ok_mode VT_AUTO; ok_int KD_GRAPHICS]))
  = [SysIoctl 3 VT_GETMODE; SysIoctl 3 KDGETMODE;
     SysIoctl 3 (VT_SETMODE (mk_vt_mode VT_PROCESS 0 64 63 0));
     SysSignal 64 OnReleaseDisplay; SysSignal 63 OnAcquireDisplay].
Proof. reflexivity. Qed.

(** The activate call is interrupted twice, then the switch goes through. *)
Example jumpToVt_interrupted_twice :
  run_script (jumpToVt script_sys 3 2 true)
    [ok_fd 3; ok_fd 4; sys_ok; sys_ok; ok_mode VT_PROCESS;
     failed EINTR; failed EINTR; sys_ok; sys_ok]
  = (true,
     [EvLog LvDebug "Jumping to VT" [LInt 2];
      EvSys (SysOpen tty0 258) (ok_fd 3);
      EvSys (SysOpen "/dev/tty2" 258) (ok_fd 4);
      EvSys (SysWrite 4 clearEscapeSequence 8) sys_ok;
      EvSys (SysIoctl 4 (KDSETMODE KD_GRAPHICS)) sys_ok;
      EvSys (SysIoctl 3 VT_GETMODE) (ok_mode VT_PROCESS);
      EvLog LvDebug "VT mode didn't need to be fixed" [];
      EvSys (SysIoctl 4 (VT_ACTIVATE 2)) (failed EINTR);
      EvSys (SysIoctl 4 (VT_ACTIVATE 2)) (failed EINTR);
      EvSys (SysIoctl 4 (VT_ACTIVATE 2)) sys_ok;
      EvSys (SysIoctl 4 (VT_WAITACTIVE 2)) sys_ok;
      EvSys (SysClose 3) sys_ok;
      EvSys (SysClose 4) sys_ok]).
Proof. reflexivity. Qed.

(** A kernel that interrupts every call keeps the loop running. *)
Example jumpToVt_always_interrupted :
  fst (jumpToVt script_sys 2 2 true
         (mk_world [ok_fd 3; ok_fd 4; sys_ok; sys_ok; ok_mode VT_PROCESS;
                    failed EINTR; failed EINTR] 0 [])) = false.
Proof. reflexivity. Qed.

(** * Further properties of the code *)

Lemma forallb_weaken {A} (P Q : A -> bool) (l : list A) :
  (forall x, P x = true -> Q x = true) ->
  forallb P l = true -> forallb Q l = true.
Proof.
  intros HPQ H. apply forallb_forall. intros x Hx.
  rewrite forallb_forall in H. auto.
Qed.

Section Extras.

Variable K : Type.
Variable sys : K -> syscall -> sysret * K.

(** *** The signal handlers *)

(** Either handler opens the master device, sends one acknowledgment on what
    [open] returned, whether or not that is a descriptor, and closes it: no
    log line, no other call, and a descriptor it obtained is closed exactly
    once. *)
Theorem handlers_acknowledge_and_close (signal : Z) (k : K) (e : Z) :
  let ta := trace (snd (onAcquireDisplay sys signal (mk_world k e []))) in
  let tr := trace (snd (onReleaseDisplay sys signal (mk_world k e []))) in
  let fd := ret (fst (sys k (SysOpen tty0 open_flags))) in
  calls_of ta = [SysOpen tty0 open_flags; SysIoctl fd (VT_RELDISP VT_ACKACQ); SysClose fd]
  /\ calls_of tr = [SysOpen tty0 open_flags; SysIoctl fd (VT_RELDISP 1); SysClose fd]
  /\ filter is_log ta = [] /\ filter is_log tr = []
  /\ closed_exactly_once ta /\ closed_exactly_once tr.
Proof.
  cbv zeta. unfold onAcquireDisplay, onReleaseDisplay. unfold_prims.
  destruct (sys k (SysOpen tty0 open_flags)) as [r0 k0] eqn:H0. simp_world.
  repeat next_call.
  repeat (split; [reflexivity |]).
  unfold closed_exactly_once. cbn [opened_fds closed_fds].
  split; (destruct (0 <=? ret r0); [| intros ? []]);
    intros fd [<- | []]; cbn [count_occ];
    destruct (Z.eq_dec (ret r0) (ret r0)); congruence.
Qed.

(** *** The handshake *)

(** [handleVtSwitches] reports whether the mode-set call succeeded, and
    registers both signal handlers whether it did or not; the only log line
    is the one for a failed mode-set call. *)
Theorem handleVtSwitches_result (fd : Z) (k : K) (e : Z) :
  let out := handleVtSwitches sys fd (mk_world k e []) in
  let r := fst (sys k (SysIoctl fd (VT_SETMODE setModeRequest))) in
  fst out = (0 <=? ret r)
  /\ calls_of (trace (snd out))
     = [SysIoctl fd (VT_SETMODE setModeRequest);
        SysSignal RELEASE_DISPLAY_SIGNAL OnReleaseDisplay;
        SysSignal ACQUIRE_DISPLAY_SIGNAL OnAcquireDisplay]
  /\ filter is_log (trace (snd out))
     = if 0 <=? ret r then []
       else [EvLog LvDebug "Failed to manage VT manually:" [LErrno (err r)]].
Proof.
  cbv zeta. unfold handleVtSwitches. unfold_prims.
  destruct (sys k (SysIoctl fd (VT_SETMODE setModeRequest))) as [r k1] eqn:H1.
  simp_world.
  destruct (ret r <? 0) eqn:Hr; simp_world; repeat next_call.
  - apply Z.ltb_lt in Hr.
    replace (0 <=? ret r) with false by (symmetry; apply Z.leb_gt; lia).
    repeat split.
  - apply Z.ltb_ge in Hr.
    replace (0 <=? ret r) with true by (symmetry; apply Z.leb_le; lia).
    repeat split.
Qed.

(** *** Mode Repair, path by path *)

(** A VT that is not in [VT_AUTO] needs nothing: after the VT-mode query
    Mode Repair only reports that nothing had to be fixed; the display mode is
    not even queried. *)
Theorem fixVtMode_not_auto
    (fd : Z) (vt_auto : bool) (k : K) (e : Z) (r1 : sysret) (k1 : K) (m : vt_mode) :
  sys k (SysIoctl fd VT_GETMODE) = (r1, k1) ->
  0 <= ret r1 -> data r1 = ModeData m -> mode m <> VT_AUTO ->
  let out := fixVtMode sys fd vt_auto (mk_world k e []) in
  trace (snd out) = [EvSys (SysIoctl fd VT_GETMODE) r1; consistent_report]
  /\ kern (snd out) = k1.
Proof.
  intros H1 Hr1 Hd1 Hm out. subst out.
  apply Z.ltb_ge in Hr1. apply Z.eqb_neq in Hm.
  unfold fixVtMode, fixVtMode_out, store_mode. unfold_prims.
  rewrite H1. simp_world. rewrite Hr1, Hd1, Hm. simp_world.
  split; reflexivity.
Qed.

(** A failed display-mode query, after a VT-mode query that reported
    [VT_AUTO], ends Mode Repair with the failure report and without any
    repair: the buffer keeps its initial zero, which is [KD_TEXT]. *)
Theorem fixVtMode_display_query_failure
    (fd : Z) (vt_auto : bool) (k : K) (e : Z)
    (r1 r2 : sysret) (k1 k2 : K) (m : vt_mode) :
  sys k (SysIoctl fd VT_GETMODE) = (r1, k1) ->
  0 <= ret r1 -> data r1 = ModeData m -> mode m = VT_AUTO ->
  sys k1 (SysIoctl fd KDGETMODE) = (r2, k2) -> ret r2 < 0 ->
  let out := fixVtMode sys fd vt_auto (mk_world k e []) in
  trace (snd out)
  = [EvSys (SysIoctl fd VT_GETMODE) r1;
     EvSys (SysIoctl fd KDGETMODE) r2;
     EvLog LvWarning "Failed to query kernel display mode:" [LErrno (err r2)];
     failure_report]
  /\ kern (snd out) = k2.
Proof.
  intros H1 Hr1 Hd1 Hm H2 Hr2 out. subst out.
  apply Z.ltb_ge in Hr1. apply Z.ltb_lt in Hr2.
  unfold fixVtMode, fixVtMode_out, store_mode, store_int. unfold_prims.
  rewrite H1. simp_world. rewrite Hr1, Hd1, Hm.
  change (VT_AUTO =? VT_AUTO) with true. simp_world.
  rewrite H2. simp_world. rewrite Hr2. simp_world.
  split; reflexivity.
Qed.

(** The strategy for an owner that is gone: with [VT_AUTO] and a display
    mode other than [KD_TEXT], the display is set to [KD_TEXT] on the same
    handle and nothing else is changed.  When the call succeeds the report is
    that nothing had to be fixed (this path never sets [modeFixed]); when it
    fails, a warning and the failure report. *)
Theorem fixVtMode_owner_gone_sets_text
    (fd : Z) (k : K) (e : Z) (r1 r2 r3 : sysret) (k1 k2 k3 : K)
    (m : vt_mode) (d : Z) :
  sys k (SysIoctl fd VT_GETMODE) = (r1, k1) ->
  0 <= ret r1 -> data r1 = ModeData m -> mode m = VT_AUTO ->
  sys k1 (SysIoctl fd KDGETMODE) = (r2, k2) ->
  0 <= ret r2 -> data r2 = IntData d -> d <> KD_TEXT ->
  sys k2 (SysIoctl fd (KDSETMODE KD_TEXT)) = (r3, k3) ->
  let out := fixVtMode sys fd true (mk_world k e []) in
  trace (snd out)
  = [EvSys (SysIoctl fd VT_GETMODE) r1;
     EvSys (SysIoctl fd KDGETMODE) r2;
     EvSys (SysIoctl fd (KDSETMODE KD_TEXT)) r3]
    ++ (if ret r3 <? 0
        then [EvLog LvWarning "Failed to set text mode for current VT: %s"
                    [LErrno (err r3)];
              failure_report]
        else [consistent_report])
  /\ kern (snd out) = k3.
Proof.
  intros H1 Hr1 Hd1 Hm H2 Hr2 Hd2 Hd H3 out. subst out.
  apply Z.ltb_ge in Hr1, Hr2. apply Z.eqb_neq in Hd.
  unfold fixVtMode, fixVtMode_out, store_mode, store_int. unfold_prims.
  rewrite H1. simp_world. rewrite Hr1, Hd1, Hm.
  change (VT_AUTO =? VT_AUTO) with true. simp_world.
  rewrite H2. simp_world. rewrite Hr2, Hd2, Hd. simp_world.
  rewrite H3. simp_world.
  destruct (ret r3 <? 0); simp_world; split; reflexivity.
Qed.

(** The strategy for an owner that may be alive: with [VT_AUTO] and a display
    mode other than [KD_TEXT], the handshake is installed on the same handle;
    the report says the mode was fixed when the mode-set call succeeded, and
    is the failure report when it did not.  The display mode is left as it
    is. *)
Theorem fixVtMode_owner_alive_installs_handshake
    (fd : Z) (k : K) (e : Z) (r1 r2 r3 : sysret) (k1 k2 k3 : K)
    (m : vt_mode) (d : Z) :
  sys k (SysIoctl fd VT_GETMODE) = (r1, k1) ->
  0 <= ret r1 -> data r1 = ModeData m -> mode m = VT_AUTO ->
  sys k1 (SysIoctl fd KDGETMODE) = (r2, k2) ->
  0 <= ret r2 -> data r2 = IntData d -> d <> KD_TEXT ->
  sys k2 (SysIoctl fd (VT_SETMODE setModeRequest)) = (r3, k3) ->
  let out := fixVtMode sys fd false (mk_world k e []) in
  exists hs,
    trace (snd out)
    = [EvSys (SysIoctl fd VT_GETMODE) r1; EvSys (SysIoctl fd KDGETMODE) r2]
      ++ hs ++ [if ret r3 <? 0 then failure_report else fixed_report]
    /\ installs_handshake fd hs
    /\ forallb (fun ev => negb (is_kdsetmode ev)) (trace (snd out)) = true.
Proof.
  intros H1 Hr1 Hd1 Hm H2 Hr2 Hd2 Hd H3 out. subst out.
  apply Z.ltb_ge in Hr1, Hr2. apply Z.eqb_neq in Hd.
  unfold fixVtMode, fixVtMode_out, handleVtSwitches, store_mode, store_int, setModeRequest in *.
  unfold_prims.
  rewrite H1. simp_world. rewrite Hr1, Hd1, Hm.
  change (VT_AUTO =? VT_AUTO) with true. simp_world.
  rewrite H2. simp_world. rewrite Hr2, Hd2, Hd. simp_world.
  rewrite H3. simp_world.
  destruct (ret r3 <? 0); simp_world; repeat next_call.
  - exists [EvSys (SysIoctl fd (VT_SETMODE
                     (mk_vt_mode VT_PROCESS 0 RELEASE_DISPLAY_SIGNAL
                        ACQUIRE_DISPLAY_SIGNAL 0))) r3;
            EvLog LvDebug "Failed to manage VT manually:" [LErrno (err r3)];
            EvSys (SysSignal RELEASE_DISPLAY_SIGNAL OnReleaseDisplay) s;
            EvSys (SysSignal ACQUIRE_DISPLAY_SIGNAL OnAcquireDisplay) s0].
    split; [reflexivity |]. split; [| reflexivity].
    exists r3, [EvLog LvDebug "Failed to manage VT manually:" [LErrno (err r3)]], s, s0.
    split; reflexivity.
  - exists [EvSys (SysIoctl fd (VT_SETMODE
                     (mk_vt_mode VT_PROCESS 0 RELEASE_DISPLAY_SIGNAL
                        ACQUIRE_DISPLAY_SIGNAL 0))) r3;
            EvSys (SysSignal RELEASE_DISPLAY_SIGNAL OnReleaseDisplay) s;
            EvSys (SysSignal ACQUIRE_DISPLAY_SIGNAL OnAcquireDisplay) s0].
    split; [reflexivity |]. split; [| reflexivity].
    exists r3, [], s, s0. split; reflexivity.
Qed.

(** *** Mode Repair, on every path *)

Ltac all_paths :=
  repeat (first [next_call | split_if; simp_world]).

Lemma fixVtMode_owner_gone_events (fd : Z) (w : world K) :
  exists evs,
    trace (snd (fixVtMode sys fd true w)) = trace w ++ evs
    /\ forallb (fun ev => negb (is_handshake_call ev) && negb (is_fixed_report ev))
         evs = true.
Proof.
  destruct w as [k e t].
  unfold fixVtMode, fixVtMode_out, handleVtSwitches. unfold_prims.
  all_paths; (eexists; split; [list_eq | reflexivity]).
Qed.

Lemma fixVtMode_owner_alive_events (fd : Z) (w : world K) :
  exists evs,
    trace (snd (fixVtMode sys fd false w)) = trace w ++ evs
    /\ forallb (fun ev => negb (is_kdsetmode ev)) evs = true.
Proof.
  destruct w as [k e t].
  unfold fixVtMode, fixVtMode_out, handleVtSwitches. unfold_prims.
  all_paths; (eexists; split; [list_eq | reflexivity]).
Qed.

(** When the owner is known to be gone, Mode Repair never installs the
    handshake (no [VT_SETMODE], no signal handler) and never reports that the
    mode was fixed, whatever the kernel answers. *)
Theorem fixVtMode_owner_gone_never_handshake (fd : Z) (k : K) (e : Z) :
  forallb (fun ev => negb (is_handshake_call ev) && negb (is_fixed_report ev))
    (trace (snd (fixVtMode sys fd true (mk_world k e [])))) = true.
Proof.
  destruct (fixVtMode_owner_gone_events fd (mk_world k e [])) as (evs & Ht & H).
  rewrite Ht. exact H.
Qed.

(** When the owner may be alive, Mode Repair never changes the display mode,
    whatever the kernel answers. *)
Theorem fixVtMode_owner_alive_never_sets_display (fd : Z) (k : K) (e : Z) :
  forallb (fun ev => negb (is_kdsetmode ev))
    (trace (snd (fixVtMode sys fd false (mk_world k e [])))) = true.
Proof.
  destruct (fixVtMode_owner_alive_events fd (mk_world k e [])) as (evs & Ht & H).
  rewrite Ht. exact H.
Qed.

(** Mode Repair works on the handle it is given and on no other: every ioctl
    it issues is on [fd]; it starts with the VT-mode query and ends with
    exactly one of its three reports. *)
Theorem fixVtMode_frame (fd : Z) (vt_auto : bool) (k : K) (e : Z) :
  let tr := trace (snd (fixVtMode sys fd vt_auto (mk_world k e []))) in
  forallb (ioctl_on fd) tr = true
  /\ (exists r rest, tr = EvSys (SysIoctl fd VT_GETMODE) r :: rest)
  /\ (exists pre report,
        tr = pre ++ [report]
        /\ In report [failure_report; fixed_report; consistent_report]
        /\ forallb (fun ev => negb (is_fixed_report ev)) pre = true
        /\ ~ In failure_report pre /\ ~ In consistent_report pre).
Proof.
  cbv zeta.
  unfold fixVtMode, fixVtMode_out, handleVtSwitches. unfold_prims.
  all_paths;
    (split; [cbn; rewrite ?Z.eqb_refl; reflexivity |]);
    (split; [eexists; eexists; reflexivity |]);
    match goal with
    | |- exists pre report, ?l = _ /\ _ =>
        exists (removelast l), (last l consistent_report)
    end;
    cbn [removelast last];
    (split; [reflexivity |]);
    (split; [cbn; tauto |]);
    (split; [reflexivity |]);
    split; cbn; intros H;
    repeat match goal with
           | H : _ \/ _ |- _ => destruct H
           | H : False |- _ => destruct H
           end; discriminate.
Qed.

(** *** Discovery and allocation *)

(** When the master device cannot be opened, [fetchAvailableVt] and
    [setUpNewVt] log the failure and return [-1] at once: no query, no
    allocation request, and no [close] of the invalid handle. *)
Theorem discovery_master_open_failure
    (k : K) (e : Z) (r0 : sysret) (k1 : K) :
  sys k (SysOpen tty0 open_flags) = (r0, k1) -> ret r0 < 0 ->
  let failure :=
    [EvSys (SysOpen tty0 open_flags) r0;
     EvLog LvCritical "Failed to open VT master:" [LErrno (err r0)]] in
  let f := fetchAvailableVt sys (mk_world k e []) in
  let s := setUpNewVt sys (mk_world k e []) in
  (fst f = -1 /\ trace (snd f) = failure /\ kern (snd f) = k1)
  /\ (fst s = -1 /\ trace (snd s) = failure /\ kern (snd s) = k1).
Proof.
  intros H0 Hr0. apply Z.ltb_lt in Hr0. cbv zeta.
  unfold fetchAvailableVt, setUpNewVt. unfold_prims.
  rewrite H0. simp_world. rewrite Hr0. simp_world. repeat split.
Qed.

(** When the allocation call yields a positive id, [setUpNewVt] returns it
    without asking for the active VT and without any log line. *)
Theorem setUpNewVt_positive_allocation
    (k : K) (e : Z) (r0 r1 : sysret) (k1 k2 : K) (v : Z) :
  sys k (SysOpen tty0 open_flags) = (r0, k1) -> 0 <= ret r0 ->
  sys k1 (SysIoctl (ret r0) VT_OPENQRY) = (r1, k2) ->
  0 <= ret r1 -> data r1 = IntData v -> 0 < v ->
  let out := setUpNewVt sys (mk_world k e []) in
  fst out = v
  /\ exists rc,
      trace (snd out)
      = [EvSys (SysOpen tty0 open_flags) r0;
         EvSys (SysIoctl (ret r0) VT_OPENQRY) r1;
         EvSys (SysClose (ret r0)) rc].
Proof.
  intros H0 Hfd H1 Hr1 Hd1 Hv out. subst out.
  apply Z.ltb_ge in Hfd, Hr1. apply Z.leb_gt in Hv.
  unfold setUpNewVt, store_int. unfold_prims.
  rewrite H0. simp_world. rewrite Hfd. simp_world. rewrite H1. simp_world.
  rewrite Hr1, Hd1, Hv. simp_world.
  split; [reflexivity |]. eexists. reflexivity.
Qed.

(** The two ways [setUpNewVt] fails once the master device is open: the
    allocation call fails, and no active VT is asked for; or the allocation
    yields no positive id and the query of the active VT fails.  Either way
    the result is [-1], the failure is logged as critical and the handle is
    closed. *)
Theorem setUpNewVt_failures
    (k : K) (e : Z) (r0 r1 r2 : sysret) (k1 k2 k3 : K) :
  sys k (SysOpen tty0 open_flags) = (r0, k1) -> 0 <= ret r0 ->
  sys k1 (SysIoctl (ret r0) VT_OPENQRY) = (r1, k2) ->
  sys k2 (SysIoctl (ret r0) VT_GETSTATE) = (r2, k3) ->
  let out := setUpNewVt sys (mk_world k e []) in
  (ret r1 < 0 ->
   fst out = -1
   /\ exists rc,
       trace (snd out)
       = [EvSys (SysOpen tty0 open_flags) r0;
          EvSys (SysIoctl (ret r0) VT_OPENQRY) r1;
          EvLog LvCritical "Failed to open new VT:" [LErrno (err r1)];
          EvSys (SysClose (ret r0)) rc])
  /\ (0 <= ret r1 -> store_int r1 0 <= 0 -> ret r2 < 0 ->
      fst out = -1
      /\ exists rc,
          trace (snd out)
          = [EvSys (SysOpen tty0 open_flags) r0;
             EvSys (SysIoctl (ret r0) VT_OPENQRY) r1;
             EvSys (SysIoctl (ret r0) VT_GETSTATE) r2;
             EvLog LvCritical "Failed to get current VT:" [LErrno (err r2)];
             EvSys (SysClose (ret r0)) rc]).
Proof.
  intros H0 Hfd H1 H2 out. subst out. apply Z.ltb_ge in Hfd.
  unfold setUpNewVt. unfold_prims.
  rewrite H0. simp_world. rewrite Hfd. simp_world. rewrite H1. simp_world.
  split.
  - intros Hr1. apply Z.ltb_lt in Hr1. rewrite Hr1. simp_world.
    split; [reflexivity |]. eexists. reflexivity.
  - intros Hr1 Hv Hr2.
    apply Z.ltb_ge in Hr1. apply Z.leb_le in Hv. apply Z.ltb_lt in Hr2.
    rewrite Hr1, Hv. simp_world. rewrite H2. simp_world. rewrite Hr2. simp_world.
    split; [reflexivity |]. eexists. reflexivity.
Qed.

(** Discovery and allocation only look.  On every kernel the system calls of
    [fetchAvailableVt] and of [setUpNewVt] are one of three lists, and no
    other: the open of the master device alone; or that open, one query on
    the descriptor it returned and the close of that descriptor; or the open,
    the two queries and the close.  So the master device is the only thing
    they open, and they never set a mode, register a handler, write, or
    switch the VT. *)
Theorem discovery_only_queries (k : K) (e : Z) :
  let tf := trace (snd (fetchAvailableVt sys (mk_world k e []))) in
  let ts := trace (snd (setUpNewVt sys (mk_world k e []))) in
  let fd := ret (fst (sys k (SysOpen tty0 open_flags))) in
  In (calls_of tf)
     [[SysOpen tty0 open_flags];
      [SysOpen tty0 open_flags; SysIoctl fd VT_GETSTATE; SysClose fd];
      [SysOpen tty0 open_flags; SysIoctl fd VT_GETSTATE; SysIoctl fd VT_OPENQRY;
       SysClose fd]]
  /\ In (calls_of ts)
       [[SysOpen tty0 open_flags];
        [SysOpen tty0 open_flags; SysIoctl fd VT_OPENQRY; SysClose fd];
        [SysOpen tty0 open_flags; SysIoctl fd VT_OPENQRY; SysIoctl fd VT_GETSTATE;
         SysClose fd]].
Proof.
  cbv zeta. unfold fetchAvailableVt, setUpNewVt. unfold_prims.
  destruct (sys k (SysOpen tty0 open_flags)) as [r0 k0] eqn:H0. simp_world.
  split; all_paths; cbn [calls_of app In];
    first [ left; reflexivity
          | right; left; reflexivity
          | right; right; left; reflexivity ].
Qed.

(** *** The switch *)

Lemma retry_run_loop_events (fd vt : Z) (evs : list event) :
  retry_run fd vt evs -> forallb (is_loop_event fd vt) evs = true.
Proof.
  induction 1; cbn; rewrite ?Z.eqb_refl; cbn; auto.
Qed.

Lemma interrupted_rounds_loop_events (fd vt : Z) (evs : list event) :
  interrupted_rounds fd vt evs -> forallb (is_loop_event fd vt) evs = true.
Proof.
  induction 1; cbn; rewrite ?Z.eqb_refl; cbn; auto.
Qed.

Lemma jump_loop_events (fuel : nat) (fd vt : Z) (w : world K) :
  exists evs,
    trace (snd (jump_loop sys fuel fd vt w)) = trace w ++ evs
    /\ forallb (is_loop_event fd vt) evs = true.
Proof.
  destruct (jump_loop_spec K sys fuel fd vt w) as (evs & Ht & H).
  exists evs. split; [exact Ht |].
  destruct (fst (jump_loop sys fuel fd vt w));
    [apply retry_run_loop_events | apply interrupted_rounds_loop_events];
    exact H.
Qed.

(** A property of events that holds of what Mode Repair does, of the
    handshake when one is installed, and of what [jumpToVt] does itself,
    holds of everything [jumpToVt] does. *)
Lemma jumpToVt_events (P : event -> bool) (fuel : nat) (vt : Z) (vt_auto : bool)
    (w : world K) :
  (forall fd w', exists evs,
      trace (snd (fixVtMode sys fd vt_auto w')) = trace w' ++ evs
      /\ forallb P evs = true) ->
  (vt_auto = false -> forall e, is_handshake_call e = true -> P e = true) ->
  (forall e, is_jump_own_event e = true -> P e = true) ->
  exists evs,
    trace (snd (jumpToVt sys fuel vt vt_auto w)) = trace w ++ evs
    /\ forallb P evs = true.
Proof.
  intros Hfix Hhs Hown.
  assert (Hlog : forall l m a, P (EvLog l m a) = true)
    by (intros; apply Hown; reflexivity).
  rewrite jumpToVt_split. cbv zeta.
  assert (Hprep : exists evs,
             trace (snd (jump_prepare sys vt vt_auto w)) = trace w ++ evs
             /\ forallb P evs = true).
  { destruct w as [k e t]. unfold jump_prepare. unfold_prims.
    do 2 next_call.
    destruct (ret s0 =? -1); simp_world.
    - eexists. split; [list_eq |]. cbn [forallb].
      rewrite !Hlog, !Hown by reflexivity. reflexivity.
    - do 2 next_call.
      destruct (ret s2 <? 0); simp_world;
        match goal with
        | |- context [fixVtMode sys ?a ?b ?W] =>
            destruct (Hfix a W) as (evs & Ht & Hq)
        end; rewrite Ht; simp_world;
        (eexists; split; [list_eq |]); cbn [forallb];
        rewrite !Hlog, !Hown by reflexivity; cbn [andb]; exact Hq. }
  destruct Hprep as (e1 & Ht1 & H1).
  set (p := jump_prepare sys vt vt_auto w) in *.
  assert (Hhand : exists evs,
             trace (snd (jump_handshake sys (fst (fst p)) vt_auto (snd p)))
             = trace (snd p) ++ evs
             /\ forallb P evs = true).
  { destruct (jump_handshake_spec K sys (fst (fst p)) vt_auto (snd p))
      as (evs & Ht & H).
    exists evs. split; [exact Ht |].
    destruct vt_auto; [subst evs; reflexivity |].
    destruct H as (r1 & logs & r2 & r3 & -> & Hlogs).
    cbn [forallb]. rewrite forallb_app. cbn [forallb].
    rewrite !Hhs by reflexivity. cbn [andb]. rewrite andb_true_r.
    apply forallb_forall. intros x Hx.
    rewrite forallb_forall in Hlogs. specialize (Hlogs x Hx).
    destruct x; [discriminate | apply Hlog]. }
  destruct Hhand as (e2 & Ht2 & H2).
  set (w1 := snd (jump_handshake sys (fst (fst p)) vt_auto (snd p))) in *.
  destruct (jump_loop_events fuel (fst (fst p)) vt w1) as (e3 & Ht3 & H3).
  assert (H3' : forallb P e3 = true).
  { revert H3. apply forallb_weaken. intros x Hx. apply Hown.
    destruct x as [[| | |? []|] ?|]; try discriminate; reflexivity. }
  destruct (fst (jump_loop sys fuel (fst (fst p)) vt w1)); cbn [snd].
  - destruct (jump_finish_spec K sys (fst (snd (fst p))) (snd (snd (fst p)))
                (snd (jump_loop sys fuel (fst (fst p)) vt w1)))
      as (rc1 & rc2 & Hf).
    eexists. split.
    + rewrite Hf, Ht3, Ht2, Ht1. repeat rewrite <- app_assoc. reflexivity.
    + repeat rewrite forallb_app. rewrite H1, H2, H3'. cbn [andb forallb].
      destruct (negb (snd (snd (fst p)) =? -1)); cbn [forallb];
        rewrite !Hown by reflexivity; reflexivity.
  - exists (e1 ++ e2 ++ e3). split.
    + rewrite Ht3, Ht2, Ht1. repeat rewrite <- app_assoc. reflexivity.
    + repeat rewrite forallb_app. rewrite H1, H2, H3'. reflexivity.
Qed.

(** A switch for an owner that is gone never installs the handshake: in
    the whole of [jumpToVt vt true], however long the loop runs and whatever
    the kernel answers, there is no [VT_SETMODE] call and no signal handler
    is registered. *)
Theorem jumpToVt_owner_gone_never_handshake
    (fuel : nat) (vt : Z) (k : K) (e : Z) :
  forallb (fun ev => negb (is_handshake_call ev))
    (trace (snd (jumpToVt sys fuel vt true (mk_world k e [])))) = true.
Proof.
  destruct (jumpToVt_events (fun ev => negb (is_handshake_call ev))
              fuel vt true (mk_world k e [])) as (evs & Ht & H).
  - intros fd w'.
    destruct (fixVtMode_owner_gone_events fd w') as (evs & Ht & H).
    exists evs. split; [exact Ht |].
    revert H. apply forallb_weaken. intros x Hx.
    apply andb_prop in Hx. tauto.
  - discriminate.
  - intros [[| | |? []|] ?|]; cbn; congruence.
  - rewrite Ht. exact H.
Qed.

(** A switch for an owner that may be alive sets the display mode at most
    to [KD_GRAPHICS]: [jumpToVt vt false] never issues [KDSETMODE] with
    another mode, and so never forces the display back to text. *)
Theorem jumpToVt_owner_alive_never_sets_text
    (fuel : nat) (vt : Z) (k : K) (e : Z) :
  forallb (fun ev => match ev with
                     | EvSys (SysIoctl _ (KDSETMODE m)) _ => m =? KD_GRAPHICS
                     | _ => true
                     end)
    (trace (snd (jumpToVt sys fuel vt false (mk_world k e [])))) = true.
Proof.
  match goal with
  | |- forallb ?P _ = true =>
      destruct (jumpToVt_events P fuel vt false (mk_world k e []))
        as (evs & Ht & H)
  end.
  - intros fd w'.
    destruct (fixVtMode_owner_alive_events fd w') as (evs & Ht & H).
    exists evs. split; [exact Ht |].
    revert H. apply forallb_weaken.
    intros [[| | |? []|] ?|]; cbn; congruence.
  - intros _ [[| | |? []|] ?|]; cbn; congruence.
  - intros [[| | |? []|] ?|]; cbn; congruence.
  - rewrite Ht. exact H.
Qed.

(** Settles an implication between two classifications of events by cases
    on the event. *)
Ltac by_event_kind :=
  let H := fresh "H" in
  intros [[| | |? []|] ?|] H; cbn in H |- *;
  try discriminate H; try reflexivity;
  repeat match goal with
         | H : _ && _ = true |- _ => apply andb_prop in H; destruct H
         end;
  repeat (apply andb_true_intro; split); auto.

(** What follows the preparation: the handshake on the operative handle
    (process-driven switch only), the rounds of the loop on that handle, and
    the closes once the loop is left. *)
Lemma jumpToVt_after_prepare (fuel : nat) (vt : Z) (vt_auto : bool) (w : world K) :
  let p := jump_prepare sys vt vt_auto w in
  let fd := fst (fst p) in
  exists hs loop fin,
    trace (snd (jumpToVt sys fuel vt vt_auto w)) = trace (snd p) ++ hs ++ loop ++ fin
    /\ (if vt_auto then hs = [] else installs_handshake fd hs)
    /\ forallb (is_loop_event fd vt) loop = true
    /\ (if fst (jumpToVt sys fuel vt vt_auto w)
        then exists rc1 rc2,
            fin = EvSys (SysClose (fst (snd (fst p)))) rc1
                  :: (if negb (snd (snd (fst p)) =? -1)
                      then [EvSys (SysClose (snd (snd (fst p)))) rc2] else [])
        else fin = []).
Proof.
  cbv zeta. rewrite jumpToVt_split. cbv zeta.
  set (p := jump_prepare sys vt vt_auto w).
  destruct (jump_handshake_spec K sys (fst (fst p)) vt_auto (snd p))
    as (hs & Ht2 & H2).
  set (w1 := snd (jump_handshake sys (fst (fst p)) vt_auto (snd p))) in *.
  destruct (jump_loop_events fuel (fst (fst p)) vt w1) as (loop & Ht3 & H3).
  exists hs, loop.
  destruct (fst (jump_loop sys fuel (fst (fst p)) vt w1)); cbn [fst snd].
  - destruct (jump_finish_spec K sys (fst (snd (fst p))) (snd (snd (fst p)))
                (snd (jump_loop sys fuel (fst (fst p)) vt w1)))
      as (rc1 & rc2 & Hf).
    eexists. split; [| split; [exact H2 | split; [exact H3 |]]].
    + rewrite Hf, Ht3, Ht2. repeat rewrite <- app_assoc. reflexivity.
    + exists rc1, rc2. reflexivity.
  - exists []. split; [| split; [exact H2 | split; [exact H3 | reflexivity]]].
    rewrite Ht3, Ht2. repeat rewrite <- app_assoc. rewrite app_nil_r. reflexivity.
Qed.

Lemma handshake_on_handle (fd : Z) (evs : list event) :
  installs_handshake fd evs ->
  forallb (fun ev => ioctl_on fd ev && negb (is_switch_call ev)
                     && negb (is_handle_call ev) && negb (is_mode_query ev)
                     && negb (is_kdsetmode ev) && negb (is_write ev)) evs = true.
Proof.
  intros (r1 & logs & r2 & r3 & -> & Hlogs).
  cbn [forallb ioctl_on is_switch_call is_handle_call is_mode_query is_kdsetmode
       is_write negb andb].
  rewrite Z.eqb_refl. cbn [andb]. rewrite forallb_app.
  apply andb_true_intro. split; [| reflexivity].
  revert Hlogs. apply forallb_weaken. intros [|]; [discriminate | reflexivity].
Qed.

(** When the target device cannot be opened, [jumpToVt] goes on with the
    master handle in its place: it logs the two lines, and then everything it
    does is done on the master handle.  The target is not cleared, no display
    mode is set, and Mode Repair is not run at all: there is no mode query. *)
Theorem jumpToVt_target_open_failure
    (fuel : nat) (vt : Z) (vt_auto : bool) (k : K) (e : Z)
    (ra rv : sysret) (k1 k2 : K) :
  sys k (SysOpen tty0 open_flags) = (ra, k1) ->
  sys k1 (SysOpen (ttyString vt) open_flags) = (rv, k2) ->
  ret rv = -1 ->
  exists rest,
    trace (snd (jumpToVt sys fuel vt vt_auto (mk_world k e [])))
    = [EvLog LvDebug "Jumping to VT" [LInt vt];
       EvSys (SysOpen tty0 open_flags) ra;
       EvSys (SysOpen (ttyString vt) open_flags) rv;
       EvLog LvWarning "Failed to open %s: %s" [LStr (ttyString vt); LErrno (err rv)];
       EvLog LvDebug "Using /dev/tty0 instead of %s!" [LStr (ttyString vt)]]
      ++ rest
    /\ forallb (fun ev => ioctl_on (ret ra) ev && negb (is_mode_query ev)
                          && negb (is_kdsetmode ev)
                          && negb (is_write ev) && negb (is_open_call ev))
         rest = true
    /\ closed_fds rest = if fst (jumpToVt sys fuel vt vt_auto (mk_world k e []))
                         then [ret ra] else [].
Proof.
  intros Ha Hv Hrv.
  destruct (jumpToVt_after_prepare fuel vt vt_auto (mk_world k e []))
    as (hs & loop & fin & Ht & Hhs & Hloop & Hfin).
  cbv zeta in *.
  assert (Hp : jump_prepare sys vt vt_auto (mk_world k e [])
               = ((ret ra, (ret ra, ret rv)),
                  mk_world k2 (err rv)
                    [EvLog LvDebug "Jumping to VT" [LInt vt];
                     EvSys (SysOpen tty0 open_flags) ra;
                     EvSys (SysOpen (ttyString vt) open_flags) rv;
                     EvLog LvWarning "Failed to open %s: %s"
                           [LStr (ttyString vt); LErrno (err rv)];
                     EvLog LvDebug "Using /dev/tty0 instead of %s!"
                           [LStr (ttyString vt)]])).
  { unfold jump_prepare. unfold_prims. rewrite Ha. simp_world.
    rewrite Hv. simp_world. rewrite Hrv. reflexivity. }
  rewrite Hp in *. cbn [fst snd trace] in *. rewrite Hrv in Hfin.
  change (negb (-1 =? -1)) with false in Hfin. cbv iota in Hfin.
  exists (hs ++ loop ++ fin). split; [exact Ht |].
  assert (Hhs' : forallb (fun ev => ioctl_on (ret ra) ev && negb (is_switch_call ev)
                     && negb (is_handle_call ev) && negb (is_mode_query ev)
                     && negb (is_kdsetmode ev) && negb (is_write ev)) hs = true).
  { destruct vt_auto; [subst hs; reflexivity |].
    apply handshake_on_handle. exact Hhs. }
  split.
  - repeat rewrite forallb_app. repeat (apply andb_true_intro; split).
    + revert Hhs'. apply forallb_weaken. by_event_kind.
    + revert Hloop. apply forallb_weaken. by_event_kind.
    + destruct (fst (jumpToVt sys fuel vt vt_auto (mk_world k e []))).
      * destruct Hfin as (rc1 & rc2 & ->). reflexivity.
      * subst fin. reflexivity.
  - repeat rewrite closed_fds_app.
    replace (closed_fds hs) with (@nil Z).
    2:{ symmetry. apply (no_handle_calls hs). revert Hhs'. apply forallb_weaken.
        by_event_kind. }
    replace (closed_fds loop) with (@nil Z).
    2:{ symmetry. apply (no_handle_calls loop). revert Hloop.
        apply forallb_weaken. by_event_kind. }
    destruct (fst (jumpToVt sys fuel vt vt_auto (mk_world k e []))).
    + destruct Hfin as (rc1 & rc2 & ->). reflexivity.
    + subst fin. reflexivity.
Qed.

(** Every activate call and every wait call of [jumpToVt] is for the
    requested target and on the operative handle: the target's own handle
    when it could be opened, the master handle otherwise.  This holds however
    long the loop runs. *)
Theorem jumpToVt_switch_calls_on_target
    (fuel : nat) (vt : Z) (vt_auto : bool) (k : K) (e : Z) :
  exists ra rv rest,
    trace (snd (jumpToVt sys fuel vt vt_auto (mk_world k e [])))
    = [EvLog LvDebug "Jumping to VT" [LInt vt];
       EvSys (SysOpen tty0 open_flags) ra;
       EvSys (SysOpen (ttyString vt) open_flags) rv] ++ rest
    /\ forallb (fun ev =>
                  negb (is_switch_call ev)
                  || is_loop_event (if negb (ret rv =? -1) then ret rv else ret ra)
                       vt ev) rest = true.
Proof.
  destruct (jumpToVt_trace K sys fuel vt vt_auto (mk_world k e []))
    as (ra & rv & pre & hs & loop & fin & Ht & Hq & Hh & Hl).
  cbv zeta in *.
  set (fd := if negb (ret rv =? -1) then ret rv else ret ra) in *.
  exists ra, rv, (pre ++ hs ++ loop ++ fin). split; [exact Ht |].
  repeat rewrite forallb_app. repeat (apply andb_true_intro; split).
  - apply quiet_no_switch_calls in Hq. revert Hq. apply forallb_weaken.
    intros x Hx. rewrite Hx. reflexivity.
  - destruct vt_auto; [subst hs; reflexivity |].
    apply handshake_no_switch_calls in Hh. revert Hh. apply forallb_weaken.
    intros x Hx. rewrite Hx. reflexivity.
  - assert (H : forallb (is_loop_event fd vt) loop = true).
    { destruct (fst (jumpToVt sys fuel vt vt_auto (mk_world k e []))).
      - apply retry_run_loop_events, Hl.
      - apply interrupted_rounds_loop_events, Hl. }
    revert H. apply forallb_weaken. intros x Hx. cbv beta. fold fd.
    rewrite Hx. apply orb_true_r.
  - destruct (fst (jumpToVt sys fuel vt vt_auto (mk_world k e []))).
    + destruct Hl as (_ & rc1 & rc2 & ->).
      destruct (negb (ret rv =? -1)); reflexivity.
    + destruct Hl as (_ & ->). reflexivity.
Qed.

Lemma interrupted_rounds_no_handle_calls (fd vt : Z) (evs : list event) :
  interrupted_rounds fd vt evs ->
  forallb (fun e => negb (is_handle_call e)) evs = true.
Proof. induction 1; cbn; auto. Qed.

(** [jumpToVt] holds its handles for the whole switch: as long as the loop
    is running nothing is closed, and when the function returns the closes
    are the last thing it did, the master handle first, then the target
    handle if there is one. *)
Theorem jumpToVt_closes_last
    (fuel : nat) (vt : Z) (vt_auto : bool) (k : K) (e : Z) :
  let out := jumpToVt sys fuel vt vt_auto (mk_world k e []) in
  (fst out = false -> closed_fds (trace (snd out)) = [])
  /\ (fst out = true ->
      exists body ra rv rc1 rc2,
        trace (snd out)
        = EvLog LvDebug "Jumping to VT" [LInt vt]
          :: EvSys (SysOpen tty0 open_flags) ra
          :: EvSys (SysOpen (ttyString vt) open_flags) rv
          :: body
          ++ EvSys (SysClose (ret ra)) rc1
             :: (if negb (ret rv =? -1) then [EvSys (SysClose (ret rv)) rc2] else [])
        /\ closed_fds body = []).
Proof.
  cbv zeta.
  destruct (jumpToVt_trace K sys fuel vt vt_auto (mk_world k e []))
    as (ra & rv & pre & hs & loop & fin & Ht & Hq & Hh & Hl).
  cbv zeta in *.
  apply quiet_no_handle_calls, no_handle_calls in Hq. destruct Hq as [_ Hc1].
  assert (Hc2 : closed_fds hs = []).
  { destruct vt_auto; [subst hs; reflexivity |].
    eapply no_handle_calls, handshake_no_handle_calls; eassumption. }
  split; intros Hret; rewrite Hret in Hl.
  - destruct Hl as (Hl & ->).
    apply interrupted_rounds_no_handle_calls, no_handle_calls in Hl.
    destruct Hl as [_ Hc3].
    rewrite Ht. cbn [trace app closed_fds].
    repeat rewrite closed_fds_app. rewrite Hc1, Hc2, Hc3. reflexivity.
  - destruct Hl as (Hl & rc1 & rc2 & ->).
    apply retry_run_no_handle_calls, no_handle_calls in Hl.
    destruct Hl as [_ Hc3].
    exists (pre ++ hs ++ loop), ra, rv, rc1, rc2. split.
    + rewrite Ht. cbn [trace app]. repeat rewrite <- app_assoc. reflexivity.
    + repeat rewrite closed_fds_app. rewrite Hc1, Hc2, Hc3. reflexivity.
Qed.

Lemma fixVtMode_head (fd : Z) (vt_auto : bool) (w : world K) :
  exists r rest,
    trace (snd (fixVtMode sys fd vt_auto w))
    = trace w ++ EvSys (SysIoctl fd VT_GETMODE) r :: rest.
Proof.
  destruct w as [k e t].
  unfold fixVtMode, fixVtMode_out, handleVtSwitches. unfold_prims.
  all_paths; (eexists; eexists; list_eq).
Qed.

(** When the target device is open, [jumpToVt] first clears it, writing as
    many bytes of the escape sequence as a pointer is wide, and puts it in
    [KD_GRAPHICS] (a failure of which is only logged); Mode Repair then runs
    on the master handle, not on the target. *)
Theorem jumpToVt_prepares_target
    (fuel : nat) (vt : Z) (vt_auto : bool) (k : K) (e : Z)
    (ra rv rw rg : sysret) (k1 k2 k3 k4 : K) :
  sys k (SysOpen tty0 open_flags) = (ra, k1) ->
  sys k1 (SysOpen (ttyString vt) open_flags) = (rv, k2) ->
  ret rv <> -1 ->
  sys k2 (SysWrite (ret rv) clearEscapeSequence sizeof_pointer) = (rw, k3) ->
  sys k3 (SysIoctl (ret rv) (KDSETMODE KD_GRAPHICS)) = (rg, k4) ->
  exists rm rest,
    trace (snd (jumpToVt sys fuel vt vt_auto (mk_world k e [])))
    = [EvLog LvDebug "Jumping to VT" [LInt vt];
       EvSys (SysOpen tty0 open_flags) ra;
       EvSys (SysOpen (ttyString vt) open_flags) rv;
       EvSys (SysWrite (ret rv) clearEscapeSequence sizeof_pointer) rw;
       EvSys (SysIoctl (ret rv) (KDSETMODE KD_GRAPHICS)) rg]
      ++ (if ret rg <? 0
          then [EvLog LvWarning "Failed to set graphics mode for VT %d: %s"
                      [LInt vt; LErrno (err rg)]]
          else [])
      ++ EvSys (SysIoctl (ret ra) VT_GETMODE) rm :: rest.
Proof.
  intros Ha Hv Hrv Hw Hg. apply Z.eqb_neq in Hrv.
  destruct (jumpToVt_after_prepare fuel vt vt_auto (mk_world k e []))
    as (hs & loop & fin & Ht & _).
  cbv zeta in Ht. rewrite Ht. clear Ht.
  unfold jump_prepare. unfold_prims.
  rewrite Ha. simp_world. rewrite Hv. simp_world. rewrite Hrv. simp_world.
  rewrite Hw. simp_world. rewrite Hg. simp_world.
  destruct (ret rg <? 0); simp_world;
    match goal with
    | |- context [fixVtMode sys ?a ?b ?W] =>
        destruct (fixVtMode_head a b W) as (rm & rest & Hh)
    end; rewrite Hh; simp_world;
    exists rm, (rest ++ hs ++ loop ++ fin); repeat rewrite <- app_assoc;
    reflexivity.
Qed.

(** The loop clears [errno] at the start of each round: when the activate
    call and the wait call succeed, one round is all there is, also when
    [errno] still held [EINTR] from before. *)
Theorem jump_loop_ignores_stale_errno
    (fuel : nat) (fd vt : Z) (k : K) (e : Z) (ra rw : sysret) (k1 k2 : K) :
  sys k (SysIoctl fd (VT_ACTIVATE vt)) = (ra, k1) -> 0 <= ret ra ->
  sys k1 (SysIoctl fd (VT_WAITACTIVE vt)) = (rw, k2) -> 0 <= ret rw ->
  jump_loop sys (S fuel) fd vt (mk_world k e [])
  = (true, mk_world k2 0 [ev_activate fd vt ra; ev_waitactive fd vt rw]).
Proof.
  intros Ha Hra Hw Hrw. apply Z.ltb_ge in Hra, Hrw.
  cbn [jump_loop]. unfold_prims.
  rewrite Ha. simp_world. rewrite Hra. simp_world.
  rewrite Hw. simp_world. rewrite Hrw. reflexivity.
Qed.

End Extras.

(** ** Further runs on particular kernels *)

Lemma jump_loop_interrupted_n_times (n : nat) :
  forall (fuel : nat) (fd vt e : Z) (t : list event),
    (n < fuel)%nat ->
    jump_loop script_sys fuel fd vt (mk_world (repeat (failed EINTR) n) e t)
    = (true,
       mk_world [] 0
         (t ++ map (ev_activate fd vt) (repeat (failed EINTR) n)
            ++ [ev_activate fd vt sys_ok; ev_waitactive fd vt sys_ok])).
Proof.
  induction n as [|n IH]; intros fuel fd vt e t Hlt;
    (destruct fuel as [|fuel]; [lia |]).
  - cbn. rewrite <- app_assoc. reflexivity.
  - cbn [jump_loop repeat]. unfold_prims. cbn [script_sys fst snd].
    change (ret (failed EINTR) <? 0) with true. simp_world.
    change (err (failed EINTR) =? EINTR) with true. simp_world.
    rewrite IH by lia. cbn [map]. rewrite <- app_assoc. reflexivity.
Qed.

(** The number of retries has no bound of its own: when the kernel
    interrupts the activate call [n] times and then lets it through, the loop
    issues the activate call [n + 1] times and the wait call once, logs
    nothing, and is left with [errno] clear. *)
Theorem jump_loop_counts_interruptions (n fuel : nat) (fd vt e : Z) :
  (n < fuel)%nat ->
  jump_loop script_sys fuel fd vt (mk_world (repeat (failed EINTR) n) e [])
  = (true,
     mk_world [] 0
       (map (ev_activate fd vt) (repeat (failed EINTR) n)
          ++ [ev_activate fd vt sys_ok; ev_waitactive fd vt sys_ok])).
Proof.
  intros Hlt. rewrite jump_loop_interrupted_n_times by exact Hlt. reflexivity.
Qed.

Lemma jump_loop_interrupting (fuel : nat) :
  forall (fd vt e : Z) (t : list event),
    jump_loop interrupting_sys fuel fd vt (mk_world tt e t)
    = (false,
       mk_world tt (match fuel with O => e | S _ => EINTR end)
         (t ++ repeat (ev_activate fd vt (failed EINTR)) fuel)).
Proof.
  induction fuel as [|fuel IH]; intros fd vt e t.
  - cbn. rewrite app_nil_r. reflexivity.
  - cbn [jump_loop]. unfold_prims. cbn [interrupting_sys fst snd].
    change (ret (failed EINTR) <? 0) with true. simp_world.
    change (err (failed EINTR) =? EINTR) with true. simp_world.
    rewrite IH. cbn [repeat]. rewrite <- app_assoc.
    destruct fuel; reflexivity.
Qed.

(** Nor is there a timeout: on a kernel that interrupts every activate call,
    [jumpToVt] is still in its loop after any number of rounds, having issued
    one activate call per round and no wait call, and having closed
    nothing. *)
Theorem jumpToVt_interrupted_forever (fuel : nat) (vt : Z) (vt_auto : bool) (e : Z) :
  let out := jumpToVt interrupting_sys fuel vt vt_auto (mk_world tt e []) in
  fst out = false
  /\ filter is_switch_call (trace (snd out))
     = repeat (ev_activate 0 vt (failed EINTR)) fuel
  /\ closed_fds (trace (snd out)) = [].
Proof.
  cbv zeta. rewrite jumpToVt_split. cbv zeta.
  destruct vt_auto; cbn -[jump_loop ttyString];
    rewrite jump_loop_interrupting; cbn [fst snd trace];
    (split; [reflexivity |]);
    cbn [app filter is_switch_call closed_fds];
    (split;
     [ induction fuel as [|fuel IH]; [reflexivity | cbn; f_equal; exact IH]
     | induction fuel as [|fuel IH]; [reflexivity | cbn; exact IH] ]).
Qed.

(** Device paths: distinct VT numbers name distinct devices, so that the
    target path is the master path only for VT [0]. *)
Theorem ttyString_distinct (a b : Z) :
  a <> b -> ttyString a <> ttyString b.
Proof.
  intros Hab H. apply Hab. unfold ttyString in H. cbn [String.append] in H.
  injection H as H.
  assert (Hnz : forall z, Z.to_int z <> Decimal.Pos Decimal.Nil
                          /\ Z.to_int z <> Decimal.Neg Decimal.Nil).
  { intros [|p|p]; cbn; split; try discriminate;
      intros [= Hp]; apply (DecimalPos.Unsigned.to_uint_nonnil p); exact Hp. }
  apply (f_equal NilZero.int_of_string) in H.
  rewrite !NilZero.isi in H by apply Hnz.
  injection H as H. apply DecimalZ.to_int_inj. exact H.
Qed.

(** ** Mode Repair on the simulated kernel, from any state *)

(** Whatever state the simulated kernel is in, Mode Repair leaves it in a
    state that needs no repair.  A state that needed none is left as it was,
    with no mode-set call and no handshake; a state that needed one gets a
    repair action. *)
Theorem fixVtMode_establishes_consistency
    (fd : Z) (vt_auto : bool) (s : SimKernel.state) (e : Z) :
  let out := fixVtMode SimKernel.sys fd vt_auto (mk_world s e []) in
  needs_repair (kern (snd out)) = false
  /\ (needs_repair s = false ->
      kern (snd out) = s
      /\ no_repair_action (trace (snd out)) = true
      /\ reports_consistent (trace (snd out)))
  /\ (needs_repair s = true -> no_repair_action (trace (snd out)) = false).
Proof.
  destruct s as [[m wv rs aq fr] kd]. cbv zeta.
  unfold needs_repair, fixVtMode, fixVtMode_out, handleVtSwitches,
    store_mode, store_int.
  unfold_prims. cbn -[Z.eqb]. unfold VT_AUTO, KD_TEXT.
  destruct (m =? 0) eqn:Hm; cbn -[Z.eqb].
  - destruct (kd =? 0) eqn:Hk; cbn -[Z.eqb]; rewrite ?Hm, ?Hk.
    + repeat split; try discriminate. eexists [_; _]. reflexivity.
    + destruct vt_auto; cbn -[Z.eqb]; rewrite ?Hm, ?Hk; cbn;
        repeat split; discriminate.
  - rewrite ?Hm. repeat split; try discriminate. eexists [_]. reflexivity.
Qed.

(** ** The further theorems at concrete kernels *)

Lemma fixVtMode_not_auto_witness :
  trace (snd (fixVtMode script_sys 3 false (mk_world [ok_mode VT_PROCESS] 0 [])))
  = [EvSys (SysIoctl 3 VT_GETMODE) (ok_mode VT_PROCESS); consistent_report].
Proof.
  refine (proj1 (fixVtMode_not_auto script script_sys 3 false
                   [ok_mode VT_PROCESS] 0 (ok_mode VT_PROCESS) []
                   (mk_vt_mode VT_PROCESS 0 0 0 0) eq_refl _ eq_refl _));
    cbn; [lia | discriminate].
Defined.

Lemma fixVtMode_display_query_failure_witness :
  trace (snd (fixVtMode script_sys 3 false
                (mk_world [ok_mode VT_AUTO; failed EIO] 0 [])))
  = [EvSys (SysIoctl 3 VT_GETMODE) (ok_mode VT_AUTO);
     EvSys (SysIoctl 3 KDGETMODE) (failed EIO);
     EvLog LvWarning "Failed to query kernel display mode:" [LErrno EIO];
     failure_report].
Proof.
  refine (proj1 (fixVtMode_display_query_failure script script_sys 3 false
                   [ok_mode VT_AUTO; failed EIO] 0
                   (ok_mode VT_AUTO) (failed EIO) [failed EIO] []
                   (mk_vt_mode VT_AUTO 0 0 0 0)
                   eq_refl _ eq_refl eq_refl eq_refl _)); cbn; lia.
Defined.

Lemma fixVtMode_owner_gone_sets_text_witness :
  trace (snd (fixVtMode script_sys 3 true
                (mk_world [ok_mode VT_AUTO; ok_int KD_GRAPHICS; sys_ok] 0 [])))
  = [EvSys (SysIoctl 3 VT_GETMODE) (ok_mode VT_AUTO);
     EvSys (SysIoctl 3 KDGETMODE) (ok_int KD_GRAPHICS);
     EvSys (SysIoctl 3 (KDSETMODE KD_TEXT)) sys_ok;
     consistent_report].
Proof.
  refine (proj1 (fixVtMode_owner_gone_sets_text script script_sys 3
                   [ok_mode VT_AUTO; ok_int KD_GRAPHICS; sys_ok] 0
                   (ok_mode VT_AUTO) (ok_int KD_GRAPHICS) sys_ok
                   [ok_int KD_GRAPHICS; sys_ok] [sys_ok] []
                   (mk_vt_mode VT_AUTO 0 0 0 0) KD_GRAPHICS
                   eq_refl _ eq_refl eq_refl eq_refl _ eq_refl _ eq_refl));
    cbn; [lia | lia | discriminate].
Defined.

Lemma fixVtMode_owner_alive_installs_handshake_witness :
  exists hs,
    trace (snd (fixVtMode script_sys 3 false
                  (mk_world [ok_mode VT_AUTO; ok_int KD_GRAPHICS; sys_ok] 0 [])))
    = [EvSys (SysIoctl 3 VT_GETMODE) (ok_mode VT_AUTO);
       EvSys (SysIoctl 3 KDGETMODE) (ok_int KD_GRAPHICS)]
      ++ hs ++ [fixed_report]
    /\ installs_handshake 3 hs.
Proof.
  destruct (fixVtMode_owner_alive_installs_handshake script script_sys 3
              [ok_mode VT_AUTO; ok_int KD_GRAPHICS; sys_ok] 0
              (ok_mode VT_AUTO) (ok_int KD_GRAPHICS) sys_ok
              [ok_int KD_GRAPHICS; sys_ok] [sys_ok] []
              (mk_vt_mode VT_AUTO 0 0 0 0) KD_GRAPHICS
              eq_refl ltac:(cbn; lia) eq_refl eq_refl eq_refl
              ltac:(cbn; lia) eq_refl ltac:(discriminate) eq_refl)
    as (hs & Ht & Hh & _).
  exists hs. split; [exact Ht | exact Hh].
Defined.

Lemma discovery_master_open_failure_witness :
  fst (fetchAvailableVt script_sys (mk_world [failed ENOENT] 0 [])) = -1
  /\ fst (setUpNewVt script_sys (mk_world [failed ENOENT] 0 [])) = -1.
Proof.
  destruct (discovery_master_open_failure script script_sys
              [failed ENOENT] 0 (failed ENOENT) [] eq_refl ltac:(cbn; lia))
    as [[Hf _] [Hs _]].
  split; [exact Hf | exact Hs].
Defined.

Lemma setUpNewVt_positive_allocation_witness :
  fst (setUpNewVt script_sys (mk_world [ok_fd 3; ok_int 5] 0 [])) = 5.
Proof.
  refine (proj1 (setUpNewVt_positive_allocation script script_sys
                   [ok_fd 3; ok_int 5] 0 (ok_fd 3) (ok_int 5) [ok_int 5] [] 5
                   eq_refl _ eq_refl _ eq_refl _)); cbn; lia.
Defined.

Lemma setUpNewVt_failures_witness :
  fst (setUpNewVt script_sys (mk_world [ok_fd 3; failed EIO] 0 [])) = -1
  /\ fst (setUpNewVt script_sys (mk_world [ok_fd 3; ok_int 0; failed EIO] 0 [])) = -1.
Proof.
  split.
  - refine (proj1 (proj1 (setUpNewVt_failures script script_sys
                            [ok_fd 3; failed EIO] 0
                            (ok_fd 3) (failed EIO) sys_ok [failed EIO] [] []
                            eq_refl _ eq_refl eq_refl) _)); cbn; lia.
  - refine (proj1 (proj2 (setUpNewVt_failures script script_sys
                            [ok_fd 3; ok_int 0; failed EIO] 0
                            (ok_fd 3) (ok_int 0) (failed EIO)
                            [ok_int 0; failed EIO] [failed EIO] []
                            eq_refl _ eq_refl eq_refl) _ _ _)); cbn; lia.
Defined.

Lemma jumpToVt_target_open_failure_witness :
  exists rest,
    trace (snd (jumpToVt script_sys 1 7 false
                  (mk_world [ok_fd 3; failed ENOENT] 0 [])))
    = [EvLog LvDebug "Jumping to VT" [LInt 7];
       EvSys (SysOpen tty0 open_flags) (ok_fd 3);
       EvSys (SysOpen (ttyString 7) open_flags) (failed ENOENT);
       EvLog LvWarning "Failed to open %s: %s"
             [LStr (ttyString 7); LErrno (err (failed ENOENT))];
       EvLog LvDebug "Using /dev/tty0 instead of %s!" [LStr (ttyString 7)]]
      ++ rest.
Proof.
  destruct (jumpToVt_target_open_failure script script_sys 1 7 false
              [ok_fd 3; failed ENOENT] 0 (ok_fd 3) (failed ENOENT)
              [failed ENOENT] [] eq_refl eq_refl eq_refl) as (rest & H & _).
  exists rest. exact H.
Defined.

Lemma jumpToVt_closes_last_witness :
  closed_fds (trace (snd (jumpToVt script_sys 0 7 false
                            (mk_world [ok_fd 3; ok_fd 4] 0 [])))) = [].
Proof.
  exact (proj1 (jumpToVt_closes_last script script_sys 0 7 false
                  [ok_fd 3; ok_fd 4] 0) eq_refl).
Defined.

Lemma jumpToVt_prepares_target_witness :
  exists rm rest,
    trace (snd (jumpToVt script_sys 1 7 true
                  (mk_world [ok_fd 3; ok_fd 4; sys_ok; sys_ok] 0 [])))
    = [EvLog LvDebug "Jumping to VT" [LInt 7];
       EvSys (SysOpen tty0 open_flags) (ok_fd 3);
       EvSys (SysOpen (ttyString 7) open_flags) (ok_fd 4);
       EvSys (SysWrite 4 clearEscapeSequence sizeof_pointer) sys_ok;
       EvSys (SysIoctl 4 (KDSETMODE KD_GRAPHICS)) sys_ok]
      ++ [] ++ EvSys (SysIoctl 3 VT_GETMODE) rm :: rest.
Proof.
  exact (jumpToVt_prepares_target script script_sys 1 7 true
           [ok_fd 3; ok_fd 4; sys_ok; sys_ok] 0
           (ok_fd 3) (ok_fd 4) sys_ok sys_ok
           [ok_fd 4; sys_ok; sys_ok] [sys_ok; sys_ok] [sys_ok] []
           eq_refl eq_refl ltac:(discriminate) eq_refl eq_refl).
Defined.

Lemma jump_loop_ignores_stale_errno_witness :
  jump_loop script_sys 1 4 7 (mk_world [sys_ok; sys_ok] EINTR [])
  = (true, mk_world [] 0 [ev_activate 4 7 sys_ok; ev_waitactive 4 7 sys_ok]).
Proof.
  refine (jump_loop_ignores_stale_errno script script_sys 0 4 7
            [sys_ok; sys_ok] EINTR sys_ok sys_ok [sys_ok] []
            eq_refl _ eq_refl _); cbn; lia.
Defined.

Lemma jump_loop_counts_interruptions_witness :
  fst (jump_loop script_sys 3 4 7
         (mk_world [failed EINTR; failed EINTR] 0 [])) = true.
Proof.
  exact (f_equal fst (jump_loop_counts_interruptions 2 3 4 7 0
                        ltac:(repeat constructor))).
Defined.

Lemma ttyString_distinct_witness : ttyString 1 <> ttyString 2.
Proof.
  exact (ttyString_distinct 1 2 ltac:(discriminate)).
Defined.

Lemma fixVtMode_establishes_consistency_witness :
  no_repair_action
    (trace (snd (fixVtMode SimKernel.sys 3 true
                   (mk_world (SimKernel.mk_state (mk_vt_mode VT_AUTO 0 0 0 0)
                                                 KD_GRAPHICS) 0 [])))) = false.
Proof.
  exact (proj2 (proj2 (fixVtMode_establishes_consistency 3 true
                         (SimKernel.mk_state (mk_vt_mode VT_AUTO 0 0 0 0)
                                             KD_GRAPHICS) 0)) eq_refl).
Defined.
